(** * Issue Analysis Pipeline: a shallow embedding and its properties

    The development follows the Python sources of the analyzer back end:

    - [backend/app/services/github_service.py]  (module [GitHubService])
    - [backend/app/services/llm_service.py]     (module [LLMService])
    - [backend/app/models/schemas.py]           (the pydantic models)
    - [backend/app/utils/cache.py]              (module [CacheManager])
    - [backend/app/api/routes.py]               (module [Routes])

    Python values that cross the JSON boundary are the inductive [pyval];
    exceptions are the inductive [exn] and fallible code returns
    [exn + A].  Calls that leave the process (the generative model, Redis,
    the GitHub REST API, [json.loads], pydantic's field coercion) are not
    code of the repository: their outcome is an argument of the function
    that performs the call.  Strings are sequences of code points below
    256. *)

From Stdlib Require Import ZArith String Ascii List Bool Lia DecimalString.
From Stdlib Require Import Floats.SpecFloat.
From stdpp Require Import base option list strings gmap.
From Equations Require Import Equations.

Set Warnings "-register-all".

Local Open Scope string_scope.
Local Open Scope list_scope.
Local Open Scope Z_scope.

(* ===================================================================== *)
(** * Part I: definitions *)
(* ===================================================================== *)

(** ** Python exceptions *)

(** Only the classes the sources raise or catch are named.  The class
    hierarchy matters for [except] clauses: [json.JSONDecodeError] and
    pydantic's [ValidationError] are subclasses of [ValueError];
    [OverflowError] is an [ArithmeticError] and [UnboundLocalError] a
    [NameError], neither is a [ValueError] or a [TypeError]. *)
Inductive exn : Type :=
| JSONDecodeError (msg : string)
| ValueError (msg : string)
| ValidationError (msg : string)
| KeyError (key : string)
| TypeError
| AttributeError
| OverflowError
| UnboundLocalError
| HTTPStatusError (status_code : Z)
| RequestError (msg : string)
| HTTPException (status_code : Z) (detail : string).

Definition is_JSONDecodeError (e : exn) : bool :=
  match e with JSONDecodeError _ => true | _ => false end.

Definition is_KeyError (e : exn) : bool :=
  match e with KeyError _ => true | _ => false end.

Definition is_ValueError (e : exn) : bool :=
  match e with
  | JSONDecodeError _ | ValueError _ | ValidationError _ => true
  | _ => false
  end.

Definition is_TypeError (e : exn) : bool :=
  match e with TypeError => true | _ => false end.

Definition is_HTTPException (e : exn) : bool :=
  match e with HTTPException _ _ => true | _ => false end.

(** [str(e)] for the exceptions whose text the sources interpolate. *)
Definition exn_str (e : exn) : string :=
  match e with
  | JSONDecodeError m | ValueError m | ValidationError m | RequestError m => m
  | KeyError k => "'" +:+ k +:+ "'"
  | HTTPException _ d => d
  | _ => EmptyString
  end.

(** The error monad of fallible Python code. *)
Definition result (A : Type) : Type := (exn + A)%type.

Definition raise {A} (e : exn) : result A := inl e.
Definition ret {A} (a : A) : result A := inr a.
Definition bind {A B} (m : result A) (k : A -> result B) : result B :=
  match m with inl e => inl e | inr a => k a end.

Notation "'try!' x <- m ; k" := (bind m (fun x => k))
  (at level 10, x name, m at level 100, k at level 200,
   format "'[v' 'try!'  x  <-  m ; '/' k ']'").

(** ** Python values produced by [json.loads] *)

Inductive pyval : Type :=
| PyNone
| PyBool (b : bool)
| PyInt (z : Z)
| PyFloat (f : spec_float)
| PyStr (s : string)
| PyList (l : list pyval)
| PyDict (d : list (string * pyval)).

(** A dict is kept as the list of its items; a key is looked up from the
    left, so every item list denotes a dict. *)
Fixpoint dict_lookup (d : list (string * pyval)) (k : string) : option pyval :=
  match d with
  | [] => None
  | (k', v) :: d' => if String.eqb k' k then Some v else dict_lookup d' k
  end.

Definition dict_get (d : list (string * pyval)) (k : string) (default : pyval)
  : pyval :=
  match dict_lookup d k with Some v => v | None => default end.

(** [obj.get(key, default)]: only a dict has the method. *)
Definition py_get (obj : pyval) (k : string) (default : pyval) : result pyval :=
  match obj with
  | PyDict d => ret (dict_get d k default)
  | _ => raise AttributeError
  end.

(** ** Python string primitives *)

Module Py.

Definition code (c : ascii) : N := N_of_ascii c.

(** [str.isspace] on one code point; it is also the class [\s] of [re] on
    [str] patterns and the set removed by [str.strip()]. *)
Definition isspace (c : ascii) : bool :=
  let n := code c in
  (((9 <=? n) && (n <=? 13)) || ((28 <=? n) && (n <=? 32))
   || (n =? 133) || (n =? 160))%N.

(** The whitespace [int(str)] skips around a literal: C's [isspace] on
    ASCII, and the non-ASCII Unicode spaces (mapped to a blank first). *)
Definition int_isspace (c : ascii) : bool :=
  let n := code c in
  (((9 <=? n) && (n <=? 13)) || (n =? 32) || (n =? 133) || (n =? 160))%N.

Fixpoint lstrip (p : ascii -> bool) (s : string) : string :=
  match s with
  | String c s' => if p c then lstrip p s' else s
  | EmptyString => EmptyString
  end.

Fixpoint rstrip (p : ascii -> bool) (s : string) : string :=
  match s with
  | String c s' =>
      match rstrip p s' with
      | EmptyString => if p c then EmptyString else String c EmptyString
      | r => String c r
      end
  | EmptyString => EmptyString
  end.

(** No leading character of [s] satisfies [p]. *)
Definition no_lead (p : ascii -> bool) (s : string) : Prop :=
  match s with
  | String c _ => p c = false
  | EmptyString => True
  end.

(** [s.strip()] *)
Definition strip (s : string) : string := rstrip isspace (lstrip isspace s).

(** [s.rstrip(c)] for a one-character argument. *)
Definition rstrip_char (c : ascii) (s : string) : string :=
  rstrip (Ascii.eqb c) s.

Fixpoint drop (n : nat) (s : string) : string :=
  match n, s with
  | S n', String _ s' => drop n' s'
  | _, _ => s
  end.

(** [sub in s] *)
Fixpoint contains (sub s : string) : bool :=
  if String.prefix sub s then true
  else match s with
       | String _ s' => contains sub s'
       | EmptyString => false
       end.

(** [s.split(sep)] for a one-character separator: never empty. *)
Fixpoint split (sep : ascii) (s : string) : list string :=
  match s with
  | EmptyString => [EmptyString]
  | String c s' =>
      if Ascii.eqb c sep then EmptyString :: split sep s'
      else match split sep s' with
           | h :: t => String c h :: t
           | [] => [String c EmptyString]
           end
  end.

(** [s.replace(old, empty)] for a non-empty [old]: every occurrence, found
    from the left without overlap, is removed.  [skip] counts the
    characters of the current occurrence still to be dropped. *)
Fixpoint remove_from (old : string) (skip : nat) (s : string) : string :=
  match s with
  | EmptyString => EmptyString
  | String c s' =>
      match skip with
      | S k => remove_from old k s'
      | O => if String.prefix old s
             then remove_from old (Nat.pred (String.length old)) s'
             else String c (remove_from old O s')
      end
  end.

Definition remove_all (old s : string) : string := remove_from old O s.

(** [str(n)] for an [int]. *)
Definition str_of_int (z : Z) : string := NilZero.string_of_int (Z.to_int z).

(** [parts[-1]] and [parts[-2]]. *)
Definition last1 (parts : list string) : option string := last parts.
Definition last2 (parts : list string) : option string :=
  match rev parts with
  | _ :: x :: _ => Some x
  | _ => None
  end.

End Py.

(** ** github_service.py: the URL resolver *)

Module GitHubService.

(** [GitHubService.parse_github_url].  The inner [raise ValueError] (and
    anything else raised in the [try]) is caught by [except Exception] and
    re-raised as a [ValueError] carrying the stripped URL. *)
Definition parse_github_url (url : string) : result (string * string) :=
  let url := Py.rstrip_char "/" (Py.strip url) in
  let found :=
    if Py.contains "github.com" url then
      let parts := Py.split "/" url in
      if (2 <=? length parts)%nat then
        match Py.last2 parts, Py.last1 parts with
        | Some owner, Some last =>
            let repo := Py.remove_all ".git" last in
            if negb (String.eqb owner EmptyString) && negb (String.eqb repo EmptyString)
            then Some (owner, repo) else None
        | _, _ => None
        end
      else None
    else None in
  match found with
  | Some r => ret r
  | None => raise (ValueError ("Invalid GitHub URL: " +:+ url))
  end.

(** The [GitHubIssue] dataclass.  [body] is what the REST API gave under
    that key: a text, or [None] for an issue without a description (a
    dataclass does not check its annotations). *)
Record GitHubIssue : Type := {
  title : string;
  body : option string;
  comments : list string;
  url : string;
  state : string;
  labels : list string;
  created_at : string;
  updated_at : string;
  author : string;
  reactions : list (string * Z)
}.

(** [GitHubService.fetch_issue].  [exchange] is the outcome of the body of
    the [try]: the two requests to the REST API and the construction of
    the record, or the exception it raised ([raise_for_status] raises
    [HTTPStatusError] with the status of the response).  The function
    itself is the pair of handlers. *)
Definition fetch_issue (github_token : option string)
    (owner repo : string) (issue_number : Z)
    (exchange : result GitHubIssue) : result GitHubIssue :=
  match exchange with
  | inr issue => ret issue
  | inl (HTTPStatusError status_code) =>
      if status_code =? 404 then
        raise (ValueError ("Issue #" +:+ Py.str_of_int issue_number
                           +:+ " not found in " +:+ owner +:+ "/" +:+ repo))
      else if status_code =? 403 then
        let msg := "GitHub API rate limit exceeded." in
        let msg :=
          match github_token with
          | Some (String _ _) => msg
          | _ => msg +:+ " Add a GITHUB_TOKEN to .env to increase limits."
          end in
        raise (ValueError msg)
      else raise (HTTPStatusError status_code)
  | inl e => raise e
  end.

(** [GitHubService.validate_repository]: [probe] is the status of the
    response, or the exception raised by the request. *)
Definition validate_repository (probe : result Z) : bool :=
  match probe with
  | inr status_code => status_code =? 200
  | inl _ => false
  end.

End GitHubService.

(** ** schemas.py and llm_service.py: validation and repair of a reply *)

(** [int(x)] as the validator uses it. *)
Module PyInt.

Definition is_digit (c : ascii) : bool :=
  let n := Py.code c in ((48 <=? n) && (n <=? 57))%N.

Definition digit_val (c : ascii) : Z := Z.of_N (Py.code c) - 48.

(** CPython's default limit on the digits of a decimal literal. *)
Definition int_max_str_digits : nat := 4300.

(** Digits with single underscores between them; [prev] tells whether the
    previous character was a digit, [n] counts the digits read. *)
Fixpoint digits (s : string) (acc : Z) (n : nat) (prev : bool) : option (Z * nat) :=
  match s with
  | EmptyString => if prev then Some (acc, n) else None
  | String c s' =>
      if is_digit c then digits s' (10 * acc + digit_val c) (S n) true
      else if Ascii.eqb c "_" && prev then digits s' acc n false
      else None
  end.

Definition unsigned (s : string) : option Z :=
  match digits s 0 O false with
  | Some (z, n) => if (int_max_str_digits <? n)%nat then None else Some z
  | None => None
  end.

(** [int(s)] for a [str]: [None] stands for the [ValueError]. *)
Definition of_str (s : string) : option Z :=
  match Py.rstrip Py.int_isspace (Py.lstrip Py.int_isspace s) with
  | String "+" r => unsigned r
  | String "-" r => Z.opp <$> unsigned r
  | t => unsigned t
  end.

(** [int(f)] for a [float]: truncation toward zero of [m * 2^e]. *)
Definition of_float (f : spec_float) : result Z :=
  match f with
  | S754_zero _ => ret 0
  | S754_nan => raise (ValueError "cannot convert float NaN to integer")
  | S754_infinity _ => raise OverflowError
  | S754_finite s m e =>
      let mag := if 0 <=? e then Z.shiftl (Z.pos m) e
                 else Z.shiftr (Z.pos m) (- e) in
      ret (if s then - mag else mag)
  end.

Definition int (x : pyval) : result Z :=
  match x with
  | PyBool b => ret (if b then 1 else 0)
  | PyInt z => ret z
  | PyFloat f => of_float f
  | PyStr s =>
      match of_str s with
      | Some z => ret z
      | None => raise (ValueError "invalid literal for int() with base 10")
      end
  | PyNone | PyList _ | PyDict _ => raise TypeError
  end.

End PyInt.

Record PriorityScore : Type := {
  score : Z;
  justification : string
}.

Record IssueAnalysis : Type := {
  summary : string;
  type : string;
  priority_score : PriorityScore;
  suggested_labels : list string;
  potential_impact : string
}.

Module LLMService.

Definition valid_types : list string :=
  ["bug"; "feature_request"; "documentation"; "question"; "other"].

Definition in_valid_types (s : string) : bool :=
  existsb (String.eqb s) valid_types.

(** [LLMService._validate_type]: membership in a list of [str] compares
    with [==], which only another [str] can satisfy. *)
Definition _validate_type (issue_type : pyval) : string :=
  match issue_type with
  | PyStr s => if negb (in_valid_types s) then "other" else s
  | _ => "other"
  end.

(** [LLMService._validate_priority_score] *)
Definition _validate_priority_score (score : pyval) : result Z :=
  match PyInt.int score with
  | inr score_int =>
      if (1 <=? score_int) && (score_int <=? 5) then ret score_int else ret 3
  | inl e =>
      if is_ValueError e || is_TypeError e then ret 3 else raise e
  end.

(** [isinstance(label, (str, int))]: [bool] is a subclass of [int]. *)
Definition isinstance_str_int (label : pyval) : bool :=
  match label with
  | PyStr _ | PyInt _ | PyBool _ => true
  | _ => false
  end.

(** [str(x)] on the classes whose text is fixed by the language; the
    [repr] of floats and containers is not needed by the sources. *)
Definition py_str (x : pyval) : option string :=
  match x with
  | PyStr s => Some s
  | PyInt z => Some (Py.str_of_int z)
  | PyBool b => Some (if b then "True" else "False")
  | PyNone => Some "None"
  | _ => None
  end.

Definition general : list string := ["general"].

(** [LLMService._validate_labels] *)
Definition _validate_labels (labels : pyval) : list string :=
  match labels with
  | PyList labels =>
      let valid_labels :=
        take 5 (omap (fun label => if isinstance_str_int label
                                   then Py.strip <$> py_str label
                                   else None) labels) in
      match valid_labels with
      | [] => general
      | _ => valid_labels
      end
  | _ => []
  end.

(** The fenced block of the reply: group 1 of
    [re.search(r'```(?:json)?\s*(.*?)\s*```', text, re.DOTALL)]. *)
Definition fence : string := "```".

Fixpoint after_fence (s : string) : option string :=
  if String.prefix fence s then Some (Py.drop 3 s)
  else match s with
       | String _ s' => after_fence s'
       | EmptyString => None
       end.

(** The lazy group: the shortest prefix followed by blanks and a fence. *)
Fixpoint lazy_group (s : string) : option string :=
  if String.prefix fence (Py.lstrip Py.isspace s) then Some EmptyString
  else match s with
       | String c s' => String c <$> lazy_group s'
       | EmptyString => None
       end.

Definition re_search_fence (text : string) : option string :=
  match after_fence text with
  | Some r =>
      let r := if String.prefix "json" r then Py.drop 4 r else r in
      lazy_group (Py.lstrip Py.isspace r)
  | None => None
  end.

(** [json_str]: the fenced block if there is one, else the whole reply. *)
Definition extract_json (response_text : string) : string :=
  match re_search_fence response_text with
  | Some g => g
  | None => response_text
  end.

Section Service.

(** [json.loads]: the message of the [JSONDecodeError], or the value. *)
Variable json_loads : string -> string + pyval.

(** pydantic's validation of a [str] field: the accepted text, if any. *)
Variable str_field : pyval -> option string.

(** [create_analysis_prompt] of [core/prompts.py]: the prompt, or the
    exception it raises.  [issue_body] is the body of the issue as
    [fetch_issue] stored it, a text or [None]; on [None] the builder
    raises ([len(issue_body)] is a [TypeError]). *)
Variable create_analysis_prompt :
  string -> option string -> list string -> option string -> result string.

(** The generative model: the text of the reply to the [n]-th request
    (counted from 0) when it is sent [prompt], or the exception raised. *)
Variable generate_content : nat -> string -> result string.

(** [PriorityScore(score=..., justification=...)] with [ge=1], [le=5]. *)
Definition PriorityScore_init (sc : Z) (just : pyval) : result PriorityScore :=
  match str_field just with
  | Some j =>
      if (1 <=? sc) && (sc <=? 5)
      then ret {| score := sc; justification := j |}
      else raise (ValidationError "PriorityScore")
  | None => raise (ValidationError "PriorityScore")
  end.

(** [IssueAnalysis(...)] with the [validate_type] validator. *)
Definition IssueAnalysis_init (summ : pyval) (ty : string) (ps : PriorityScore)
    (labels : list string) (impact : pyval) : result IssueAnalysis :=
  match str_field summ, str_field impact with
  | Some s, Some i =>
      if negb (in_valid_types ty) then raise (ValidationError "IssueAnalysis")
      else ret {| summary := s; type := ty; priority_score := ps;
                  suggested_labels := labels; potential_impact := i |}
  | _, _ => raise (ValidationError "IssueAnalysis")
  end.

(** The construction of the analysis from the decoded reply, argument by
    argument in evaluation order. *)
Definition build_analysis (data : pyval) : result IssueAnalysis :=
  try! summ <- py_get data "summary" (PyStr EmptyString);
  try! ty <- py_get data "type" PyNone;
  let ty := _validate_type ty in
  try! ps <- py_get data "priority_score" (PyDict []);
  try! sc <- py_get ps "score" PyNone;
  try! sc <- _validate_priority_score sc;
  try! ps' <- py_get data "priority_score" (PyDict []);
  try! just <- py_get ps' "justification" (PyStr EmptyString);
  try! priority <- PriorityScore_init sc just;
  try! labels <- py_get data "suggested_labels" (PyList []);
  let labels := _validate_labels labels in
  try! impact <- py_get data "potential_impact" (PyStr EmptyString);
  IssueAnalysis_init summ ty priority labels impact.

(** [LLMService._parse_response] *)
Definition _parse_response (response_text : string) : result IssueAnalysis :=
  let json_str := extract_json response_text in
  let body :=
    try! data <- match json_loads json_str with
                 | inl msg => raise (JSONDecodeError msg)
                 | inr data => ret data
                 end;
    build_analysis data in
  match body with
  | inr analysis => ret analysis
  | inl e =>
      if is_JSONDecodeError e
      then raise (ValueError ("Invalid JSON in response: " +:+ exn_str e))
      else if is_KeyError e
      then raise (ValueError ("Missing required field in response: " +:+ exn_str e))
      else raise e
  end.

(** [LLMService._call_gemini]; the state is the list of the prompts sent
    to the model so far, oldest first. *)
Definition _call_gemini (prompt : string) (sent : list string)
  : result string * list string :=
  let sent' := sent ++ [prompt] in
  match generate_content (length sent) prompt with
  | inr text =>
      if String.eqb text EmptyString then
        (raise (ValueError "Empty response from Gemini API"), sent')
      else (ret text, sent')
  | inl e => (raise e, sent')
  end.

(** What the [n]-th call of the model gives [_call_gemini], and what the
    body of the [try] of [analyze_issue] makes of it. *)
Definition reply (n : nat) (prompt : string) : result string :=
  match generate_content n prompt with
  | inr text =>
      if String.eqb text EmptyString
      then raise (ValueError "Empty response from Gemini API")
      else ret text
  | inl e => raise e
  end.

Definition attempt (n : nat) (prompt : string) : result IssueAnalysis :=
  try! text <- reply n prompt; _parse_response text.

Definition json_only : string :=
  String "010" (String "010"
    "IMPORTANT: Respond with ONLY valid JSON, no other text.").

(** [LLMService.analyze_issue].  The prompt is built inside the [try]:
    an exception of the builder is handled like one of the model call,
    with no request sent.  [response] is the local variable of that
    name: it is unbound in the handlers when the builder or the model
    call itself raised. *)
Equations? analyze_issue (issue_title : string) (issue_body : option string)
    (comments : list string) (repo_context : option string)
    (retry_count max_retries : Z) (sent : list string)
  : result IssueAnalysis * list string
  by wf (Z.to_nat (max_retries - retry_count)) lt :=
analyze_issue issue_title issue_body comments repo_context
              retry_count max_retries sent :=
  match create_analysis_prompt issue_title issue_body comments repo_context with
  | inl e =>
      if is_JSONDecodeError e then (raise UnboundLocalError, sent)
      else
        match Z_lt_dec retry_count max_retries with
        | left _ =>
            analyze_issue issue_title issue_body comments repo_context
                          (retry_count + 1) max_retries sent
        | right _ => (raise e, sent)
        end
  | inr prompt =>
      let '(r, sent1) := _call_gemini prompt sent in
      let '(response, body) :=
        match r with
        | inr text => (Some text, _parse_response text)
        | inl e => (None, raise e)
        end in
      match body with
      | inr analysis => (ret analysis, sent1)
      | inl e =>
          if is_JSONDecodeError e then
            match response with
            | None => (raise UnboundLocalError, sent1)
            | Some _ =>
                match Z_lt_dec retry_count max_retries with
                | left _ =>
                    let enhanced_prompt := prompt +:+ json_only in
                    let '(r2, sent2) := _call_gemini enhanced_prompt sent1 in
                    match r2 with
                    | inr _ =>
                        analyze_issue issue_title issue_body comments
                                      repo_context (retry_count + 1)
                                      max_retries sent2
                    | inl e2 => (raise e2, sent2)
                    end
                | right _ =>
                    (raise (ValueError ("Failed to parse LLM response after "
                                        +:+ Py.str_of_int max_retries
                                        +:+ " retries")),
                     sent1)
                end
            end
          else
            match Z_lt_dec retry_count max_retries with
            | left _ =>
                analyze_issue issue_title issue_body comments repo_context
                              (retry_count + 1) max_retries sent1
            | right _ => (raise e, sent1)
            end
      end
  end.
Proof. all: lia. Qed.

End Service.

End LLMService.

(** ** cache.py: the two-tier cache *)

(** [datetime] values are microseconds since 0001-01-01T00:00:00, the
    representable ones lie in [0, datetime_max]. *)
Module Datetime.

Definition datetime_max : Z := 3652059 * 86400 * 1000000 - 1.

(** [timedelta(seconds=s)] for an [int]: at most 999999999 days. *)
Definition timedelta (seconds : Z) : result Z :=
  let days := seconds / 86400 in
  if (-999999999 <=? days) && (days <=? 999999999)
  then ret (seconds * 1000000) else raise OverflowError.

(** [d + td] *)
Definition add (d td : Z) : result Z :=
  let r := d + td in
  if (0 <=? r) && (r <=? datetime_max) then ret r else raise OverflowError.

End Datetime.

Module CacheManager.

Section Cache.

(** The cached values (dicts in the source). *)
Context {V : Type}.

Record entry : Type := {
  value : V;
  expires_at : Z
}.

(** The attributes of a [CacheManager]; [redis_client] tells whether the
    attribute holds a client (is not [None]). *)
Record t : Type := {
  enabled : bool;
  ttl : Z;
  redis_client : bool;
  in_memory_cache : gmap string entry
}.

Definition with_memory (self : t) (m : gmap string entry) : t :=
  {| enabled := enabled self; ttl := ttl self;
     redis_client := redis_client self; in_memory_cache := m |}.

(** What happened in [__init__] when Redis is enabled. *)
Inductive redis_init : Type :=
| NoClient       (* the import or the construction of the client raised *)
| PingRaises     (* the client exists, [ping] raised *)
| PingOk.

(** [CacheManager.__init__] *)
Definition __init__ (enabled_arg : bool) (ttl_arg : Z) (r : redis_init) : t :=
  if enabled_arg then
    match r with
    | NoClient => {| enabled := false; ttl := ttl_arg;
                     redis_client := false; in_memory_cache := ∅ |}
    | PingRaises => {| enabled := false; ttl := ttl_arg;
                       redis_client := true; in_memory_cache := ∅ |}
    | PingOk => {| enabled := true; ttl := ttl_arg;
                   redis_client := true; in_memory_cache := ∅ |}
    end
  else {| enabled := false; ttl := ttl_arg;
          redis_client := false; in_memory_cache := ∅ |}.

(** The outcome of the [try] around the Redis read: it raised (the
    request or the decoding), it found nothing (or an empty text), or it
    decoded a value. *)
Inductive redis_read : Type :=
| ReadRaises
| ReadNothing
| ReadValue (v : V).

(** The outcome of the [try] around the Redis write. *)
Inductive redis_write : Type :=
| WriteRaises
| WriteOk.

(** [CacheManager.get]; [now] is [datetime.utcnow()]. *)
Definition get (self : t) (key : string) (now : Z) (r : redis_read)
  : option V * t :=
  let primary :=
    if redis_client self then
      match r with ReadValue v => Some v | _ => None end
    else None in
  match primary with
  | Some v => (Some v, self)
  | None =>
      match in_memory_cache self !! key with
      | Some e =>
          if now <? expires_at e then (Some (value e), self)
          else (None, with_memory self (delete key (in_memory_cache self)))
      | None => (None, self)
      end
  end.

(** [ttl or self.ttl] *)
Definition ttl_or (ttl_arg : option Z) (default : Z) : Z :=
  match ttl_arg with
  | Some t => if t =? 0 then default else t
  | None => default
  end.

(** [datetime.utcnow() + timedelta(seconds=ttl)] *)
Definition expiry (now ttl : Z) : result Z :=
  try! td <- Datetime.timedelta ttl; Datetime.add now td.

(** [CacheManager.set] *)
Definition set (self : t) (key : string) (v : V) (ttl_arg : option Z)
    (now : Z) (w : redis_write) : result bool * t :=
  let ttl := ttl_or ttl_arg (ttl self) in
  let primary :=
    if redis_client self then
      match w with WriteOk => true | WriteRaises => false end
    else false in
  if primary then (ret true, self)
  else
    match expiry now ttl with
    | inr expires =>
        (ret true,
         with_memory self
           (<[key := {| value := v; expires_at := expires |}]>
              (in_memory_cache self)))
    | inl e => (raise e, self)
    end.

(** [CacheManager.delete] *)
Definition delete (self : t) (key : string) (w : redis_write) : bool * t :=
  let primary :=
    if redis_client self then
      match w with WriteOk => true | WriteRaises => false end
    else false in
  if primary then (true, self)
  else
    match in_memory_cache self !! key with
    | Some _ => (true, with_memory self (base.delete key (in_memory_cache self)))
    | None => (false, self)
    end.

(** [CacheManager.clear_all] *)
Definition clear_all (self : t) (w : redis_write) : bool * t :=
  let primary :=
    if redis_client self then
      match w with WriteOk => true | WriteRaises => false end
    else false in
  if primary then (true, self) else (true, with_memory self ∅).

End Cache.

Arguments entry : clear implicits.
Arguments t : clear implicits.
Arguments redis_read : clear implicits.

End CacheManager.

(** ** routes.py: the analyze and batch endpoints *)

(** [AnalysisRequest] of schemas.py, once validated. *)
Record AnalysisRequest : Type := {
  github_url : string;
  issue_number : Z;
  use_cache : bool
}.

(** The [metadata] dict of an [AnalysisResponse]; the last three keys
    are present on the fresh path only. *)
Record Metadata : Type := {
  analysis_time_ms : Z;
  cached : bool;
  issue_url : string;
  meta_author : option string;
  meta_state : option string;
  existing_labels : option (list string)
}.

Record AnalysisResponse : Type := {
  success : bool;
  data : IssueAnalysis;
  metadata : Metadata
}.

Module Routes.

(** The module-level [stats] dict. *)
Record Stats : Type := {
  total_analyses : Z;
  cache_hits : Z;
  cache_misses : Z;
  errors : Z;
  response_times : list Z
}.

Definition stats0 : Stats :=
  {| total_analyses := 0; cache_hits := 0; cache_misses := 0; errors := 0;
     response_times := [] |}.

Definition incr_errors (s : Stats) : Stats :=
  {| total_analyses := total_analyses s; cache_hits := cache_hits s;
     cache_misses := cache_misses s; errors := errors s + 1;
     response_times := response_times s |}.

Definition incr_hits (s : Stats) : Stats :=
  {| total_analyses := total_analyses s; cache_hits := cache_hits s + 1;
     cache_misses := cache_misses s; errors := errors s;
     response_times := response_times s |}.

Definition incr_misses (s : Stats) : Stats :=
  {| total_analyses := total_analyses s; cache_hits := cache_hits s;
     cache_misses := cache_misses s + 1; errors := errors s;
     response_times := response_times s |}.

Definition incr_total (s : Stats) : Stats :=
  {| total_analyses := total_analyses s + 1; cache_hits := cache_hits s;
     cache_misses := cache_misses s; errors := errors s;
     response_times := response_times s |}.

Definition append_time (elapsed : Z) (s : Stats) : Stats :=
  {| total_analyses := total_analyses s; cache_hits := cache_hits s;
     cache_misses := cache_misses s; errors := errors s;
     response_times := response_times s ++ [elapsed] |}.

(** The module-level services that carry state. *)
Record App : Type := {
  cache_manager : CacheManager.t pyval;
  stats : Stats
}.

Definition with_stats (f : Stats -> Stats) (a : App) : App :=
  {| cache_manager := cache_manager a; stats := f (stats a) |}.

Definition with_cache (c : CacheManager.t pyval) (a : App) : App :=
  {| cache_manager := c; stats := stats a |}.

(** What the outside answers while one request is served.  The elapsed
    time is kept in whole milliseconds, [int(elapsed * 1000)]; the list
    of response times records the same measurement, which the source
    holds as a float of seconds. *)
Record World : Type := {
  redis_read : CacheManager.redis_read pyval;   (* the Redis read *)
  redis_write : CacheManager.redis_write;       (* the Redis write *)
  repo_probe : result Z;                        (* GET /repos/o/r *)
  issue_exchange : result GitHubService.GitHubIssue; (* the issue requests *)
  llm_reply : result IssueAnalysis;   (* [llm_service.analyze_issue(...)] *)
  read_time : Z;                      (* [utcnow()] in [get] *)
  write_time : Z;                     (* [utcnow()] in [set] *)
  elapsed_ms : Z                      (* [time.time() - start_time] in ms *)
}.

(** [analysis.dict()] *)
Definition IssueAnalysis_dict (a : IssueAnalysis) : pyval :=
  PyDict [("summary", PyStr (summary a));
          ("type", PyStr (type a));
          ("priority_score",
           PyDict [("score", PyInt (score (priority_score a)));
                   ("justification", PyStr (justification (priority_score a)))]);
          ("suggested_labels", PyList (PyStr <$> suggested_labels a));
          ("potential_impact", PyStr (potential_impact a))].

(** Truth value of a Python object. *)
Definition py_bool (x : pyval) : bool :=
  match x with
  | PyNone => false
  | PyBool b => b
  | PyInt z => negb (z =? 0)
  | PyFloat (S754_zero _) => false
  | PyFloat _ => true
  | PyStr s => negb (String.eqb s EmptyString)
  | PyList l => match l with [] => false | _ => true end
  | PyDict d => match d with [] => false | _ => true end
  end.

(** The key of an analysis in the cache. *)
Definition cache_key_of (owner repo : string) (n : Z) : string :=
  owner +:+ "/" +:+ repo +:+ "#" +:+ Py.str_of_int n.

(** The cache gives the endpoint nothing to answer with: it is not
    consulted, or the lookup gives nothing, or a value that is false. *)
Definition cache_silent (request : AnalysisRequest) (w : World) (app : App)
    (owner repo : string) : Prop :=
  use_cache request = false \/
  match fst (CacheManager.get (cache_manager app)
               (cache_key_of owner repo (issue_number request))
               (read_time w) (redis_read w)) with
  | Some d => py_bool d = false
  | None => True
  end.

Section Endpoints.

(** [settings.GITHUB_TOKEN] and [settings.DEBUG]. *)
Variable GITHUB_TOKEN : option string.
Variable DEBUG : bool.

(** pydantic: the construction of an [IssueAnalysis] from the items of a
    cached dict, and the validation of a [str] and of an [int] field. *)
Variable IssueAnalysis_parse : pyval -> result IssueAnalysis.
Variable str_field : pyval -> option string.
Variable int_field : pyval -> option Z.

Definition issues_url (owner repo : string) (n : Z) : string :=
  "https://github.com/" +:+ owner +:+ "/" +:+ repo +:+ "/issues/"
  +:+ Py.str_of_int n.

(** The body of the outer [try] of [analyze_issue]. *)
Definition analyze_issue_body (request : AnalysisRequest) (w : World) (app : App)
  : result AnalysisResponse * App :=
  match GitHubService.parse_github_url (github_url request) with
  | inl e =>
      (* [except ValueError] *)
      (raise (HTTPException 400 (exn_str e)), with_stats incr_errors app)
  | inr (owner, repo) =>
      let cache_key := cache_key_of owner repo (issue_number request) in
      let '(hit, app) :=
        if use_cache request then
          let '(cached_result, c) :=
            CacheManager.get (cache_manager app) cache_key
                             (read_time w) (redis_read w) in
          let app := with_cache c app in
          match cached_result with
          | Some d => if py_bool d then (Some d, app)
                      else (None, with_stats incr_misses app)
          | None => (None, with_stats incr_misses app)
          end
        else (None, app) in
      match hit with
      | Some d =>
          let app := with_stats (append_time (elapsed_ms w))
                       (with_stats incr_hits app) in
          (try! a <- IssueAnalysis_parse d;
           ret {| success := true; data := a;
                  metadata :=
                    {| analysis_time_ms := elapsed_ms w; cached := true;
                       issue_url := issues_url owner repo (issue_number request);
                       meta_author := None; meta_state := None;
                       existing_labels := None |} |},
           app)
      | None =>
          if negb (GitHubService.validate_repository (repo_probe w)) then
            (raise (HTTPException 404
                      ("Repository " +:+ owner +:+ "/" +:+ repo
                       +:+ " not found or is private")),
             with_stats incr_errors app)
          else
            match GitHubService.fetch_issue GITHUB_TOKEN owner repo
                    (issue_number request) (issue_exchange w) with
            | inl e => (raise e, app)
            | inr github_issue =>
                match llm_reply w with
                | inl e => (raise e, app)
                | inr analysis =>
                    let '(r, c) :=
                      CacheManager.set (cache_manager app) cache_key
                        (IssueAnalysis_dict analysis) None
                        (write_time w) (redis_write w) in
                    match r with
                    | inl e => (raise e, with_cache c app)
                    | inr _ =>
                        let app :=
                          with_stats (append_time (elapsed_ms w))
                            (with_stats incr_total (with_cache c app)) in
                        (ret {| success := true; data := analysis;
                                metadata :=
                                  {| analysis_time_ms := elapsed_ms w;
                                     cached := false;
                                     issue_url := GitHubService.url github_issue;
                                     meta_author :=
                                       Some (GitHubService.author github_issue);
                                     meta_state :=
                                       Some (GitHubService.state github_issue);
                                     existing_labels :=
                                       Some (GitHubService.labels github_issue)
                                  |} |},
                         app)
                    end
                end
            end
      end
  end.

(** [routes.analyze_issue]: an [HTTPException] passes through, any other
    exception is counted and becomes a 500. *)
Definition analyze_issue (request : AnalysisRequest) (w : World) (app : App)
  : result AnalysisResponse * App :=
  match analyze_issue_body request w app with
  | (inr response, app) => (ret response, app)
  | (inl e, app) =>
      if is_HTTPException e then (raise e, app)
      else
        let detail :=
          if DEBUG then "Internal server error: " +:+ exn_str e
          else "Internal server error" in
        (raise (HTTPException 500 detail), with_stats incr_errors app)
  end.

(** [item[key]] on a dict of the request body. *)
Definition py_subscript (item : pyval) (k : string) : result pyval :=
  match item with
  | PyDict d =>
      match dict_lookup d k with
      | Some v => ret v
      | None => raise (KeyError k)
      end
  | _ => raise TypeError
  end.

(** [AnalysisRequest(github_url=..., issue_number=...)] with the
    [validate_github_url] validator and [gt=0]. *)
Definition AnalysisRequest_init (url number : pyval) : result AnalysisRequest :=
  match str_field url, int_field number with
  | Some u, Some n =>
      if negb (Py.contains "github.com" u) || negb (0 <? n)
      then raise (ValidationError "AnalysisRequest")
      else ret {| github_url := u; issue_number := n; use_cache := true |}
  | _, _ => raise (ValidationError "AnalysisRequest")
  end.

(** The request built from one item of the batch. *)
Definition item_request (item : pyval) : result AnalysisRequest :=
  try! u <- py_subscript item "github_url";
  try! n <- py_subscript item "issue_number";
  AnalysisRequest_init u n.

(** An item from which a request can be built. *)
Definition well_formed (item : pyval) : Prop :=
  exists request, item_request item = inr request.

(** One entry of the [results] list. *)
Inductive BatchEntry : Type :=
| EntryResponse (r : AnalysisResponse)
| EntryError (error : string).

(** The [for] loop of [analyze_batch]; [worlds i] is the outside while
    the item at position [i] is served, [i] the position of the head of
    [items].  An exception that is not an [HTTPException] leaves the
    loop. *)
Fixpoint batch_loop (items : list pyval) (i : nat) (worlds : nat -> World)
    (results : list BatchEntry) (app : App)
  : result (list BatchEntry) * App :=
  match items with
  | [] => (ret results, app)
  | item :: rest =>
      match item_request item with
      | inl e => (raise e, app)
      | inr request =>
          match analyze_issue request (worlds i) app with
          | (inr response, app) =>
              batch_loop rest (S i) worlds (results ++ [EntryResponse response]) app
          | (inl (HTTPException _ detail), app) =>
              batch_loop rest (S i) worlds (results ++ [EntryError detail]) app
          | (inl e, app) => (raise e, app)
          end
      end
  end.

(** The answer of the batch endpoint: the [analyses] list and [total]. *)
Record BatchResponse : Type := {
  analyses : list BatchEntry;
  total : nat
}.

(** [routes.analyze_batch] *)
Definition analyze_batch (urls_and_issues : list pyval) (worlds : nat -> World)
    (app : App) : result BatchResponse * App :=
  if (5 <? length urls_and_issues)%nat then
    (raise (HTTPException 400 "Maximum 5 issues per batch"), app)
  else
    match batch_loop urls_and_issues O worlds [] app with
    | (inr results, app) =>
        (ret {| analyses := results; total := length urls_and_issues |}, app)
    | (inl e, app) => (raise e, app)
    end.

End Endpoints.

End Routes.

(** ** The label repair in the words of the specification *)

Module LabelSpec.

(** "non-sequence coerces to empty; each element coerced to a trimmed
    string; sequence truncated to 5; if the final sequence is empty,
    default to general", for a coercion [coerce] of elements to text. *)
Definition labels_claimed (coerce : pyval -> string) (labels : pyval)
  : list string :=
  let seq := match labels with PyList l => l | _ => [] end in
  match take 5 (map (fun x => Py.strip (coerce x)) seq) with
  | [] => LLMService.general
  | trimmed => trimmed
  end.

(** The text of an element that is a [str] or an [int]. *)
Definition label_text (x : pyval) : string :=
  match x with
  | PyStr s => s
  | PyInt z => Py.str_of_int z
  | PyBool b => if b then "True" else "False"
  | _ => EmptyString
  end.

(** The repair of a sequence: the elements that are a [str] or an [int]
    are kept, each becomes its trimmed text, at most five remain, and an
    empty outcome is replaced by general. *)
Definition labels_of_sequence (l : list pyval) : list string :=
  match take 5 (map (fun x => Py.strip (label_text x))
                    (List.filter LLMService.isinstance_str_int l)) with
  | [] => LLMService.general
  | trimmed => trimmed
  end.

End LabelSpec.

(** ** Concrete surroundings for the examples *)

Module Demo.

(** Replies are written with apostrophes for the quotation marks. *)
Fixpoint json_text (s : string) : string :=
  match s with
  | String c s' =>
      String (if Ascii.eqb c "'" then ascii_of_nat 34 else c) (json_text s')
  | EmptyString => EmptyString
  end.

(** The reply of the scenario of the specification, and its value. *)
Definition reply_ok : string :=
  json_text "{'summary':'s','type':'bug','priority_score':{'score':4,'justification':'j'},'suggested_labels':['bug','urgent'],'potential_impact':'p'}".

Definition data_ok : pyval :=
  PyDict [("summary", PyStr "s"); ("type", PyStr "bug");
          ("priority_score",
           PyDict [("score", PyInt 4); ("justification", PyStr "j")]);
          ("suggested_labels", PyList [PyStr "bug"; PyStr "urgent"]);
          ("potential_impact", PyStr "p")].

(** A reply whose score overflows a float: [1e999] decodes to [inf]. *)
Definition reply_inf : string :=
  json_text "{'summary':'s','type':'bug','priority_score':{'score':1e999,'justification':'j'},'suggested_labels':[],'potential_impact':'p'}".

Definition data_inf : pyval :=
  PyDict [("summary", PyStr "s"); ("type", PyStr "bug");
          ("priority_score",
           PyDict [("score", PyFloat (S754_infinity false));
                   ("justification", PyStr "j")]);
          ("suggested_labels", PyList []);
          ("potential_impact", PyStr "p")].

(** A reply without [type] and without [suggested_labels]. *)
Definition reply_bare : string :=
  json_text "{'summary':'s','priority_score':{'score':7,'justification':'j'},'potential_impact':'p'}".

Definition data_bare : pyval :=
  PyDict [("summary", PyStr "s");
          ("priority_score",
           PyDict [("score", PyInt 7); ("justification", PyStr "j")]);
          ("potential_impact", PyStr "p")].

Definition not_json : string := "Sure! Here is my analysis of the issue.".

Definition decode_error : string :=
  "Expecting value: line 1 column 1 (char 0)".

(** [json.loads] on the replies above; any other text of the examples is
    prose, which does not decode. *)
Definition json_loads (s : string) : string + pyval :=
  if String.eqb s reply_ok then inr data_ok
  else if String.eqb s reply_inf then inr data_inf
  else if String.eqb s reply_bare then inr data_bare
  else inl decode_error.

(** Field validation that accepts the exact class only. *)
Definition str_field (x : pyval) : option string :=
  match x with PyStr s => Some s | _ => None end.

Definition int_field (x : pyval) : option Z :=
  match x with PyInt z => Some z | _ => None end.

Definition create_analysis_prompt (issue_title : string)
    (issue_body : option string) (comments : list string)
    (repo_context : option string) : result string :=
  match issue_body with
  | Some _ => ret ("Issue Title: " +:+ issue_title)
  | None => raise TypeError
  end.

(** Three models: one that answers prose, one that answers the reply
    with the overflowing score, one that answers the scenario's reply. *)
Definition model_prose (n : nat) (prompt : string) : result string :=
  ret not_json.

Definition model_inf (n : nat) (prompt : string) : result string :=
  ret reply_inf.

Definition model_ok (n : nat) (prompt : string) : result string :=
  ret reply_ok.

Definition analyze_issue (model : nat -> string -> result string)
    (max_retries : Z) : result IssueAnalysis * list string :=
  LLMService.analyze_issue json_loads str_field create_analysis_prompt model
    "Crash on start" (Some "It crashes.") [] (Some "acme/widgets") 0
    max_retries [].

(** A cache without Redis and one whose client exists, both empty, with
    a TTL of one day; a time of day in 2025, in microseconds. *)
Definition cache_local : CacheManager.t pyval :=
  CacheManager.__init__ false 86400 CacheManager.NoClient.

Definition cache_redis : CacheManager.t pyval :=
  CacheManager.__init__ true 86400 CacheManager.PingOk.

Definition noon : Z := 63900000000000000.

(** The route layer: no token, no debug mode, a cached dict is read back
    by the parser of replies. *)
Definition IssueAnalysis_parse (d : pyval) : result IssueAnalysis :=
  LLMService.build_analysis str_field d.

Definition issue : GitHubService.GitHubIssue :=
  {| GitHubService.title := "Crash on start";
     GitHubService.body := Some "It crashes.";
     GitHubService.comments := [];
     GitHubService.url := "https://github.com/acme/widgets/issues/42";
     GitHubService.state := "open";
     GitHubService.labels := [];
     GitHubService.created_at := "2025-01-01T00:00:00Z";
     GitHubService.updated_at := "2025-01-01T00:00:00Z";
     GitHubService.author := "octocat";
     GitHubService.reactions := [] |}.

Definition analysis_ok : IssueAnalysis :=
  {| summary := "s"; type := "bug";
     priority_score := {| score := 4; justification := "j" |};
     suggested_labels := ["bug"; "urgent"]; potential_impact := "p" |}.

Definition request_42 : AnalysisRequest :=
  {| github_url := "https://github.com/acme/widgets"; issue_number := 42;
     use_cache := true |}.

(** The repository exists and everything answers. *)
Definition world_ok : Routes.World :=
  {| Routes.redis_read := CacheManager.ReadNothing;
     Routes.redis_write := CacheManager.WriteRaises;
     Routes.repo_probe := ret 200;
     Routes.issue_exchange := ret issue;
     Routes.llm_reply := ret analysis_ok;
     Routes.read_time := noon;
     Routes.write_time := noon;
     Routes.elapsed_ms := 2150 |}.

(** The repository exists, the issue does not. *)
Definition world_no_issue : Routes.World :=
  {| Routes.redis_read := CacheManager.ReadNothing;
     Routes.redis_write := CacheManager.WriteRaises;
     Routes.repo_probe := ret 200;
     Routes.issue_exchange := raise (HTTPStatusError 404);
     Routes.llm_reply := ret analysis_ok;
     Routes.read_time := noon;
     Routes.write_time := noon;
     Routes.elapsed_ms := 300 |}.

Definition app0 : Routes.App :=
  {| Routes.cache_manager := cache_local; Routes.stats := Routes.stats0 |}.

Definition item_ok : pyval :=
  PyDict [("github_url", PyStr "https://github.com/acme/widgets");
          ("issue_number", PyInt 42)].

(** An item of a batch without its issue number. *)
Definition item_no_number : pyval :=
  PyDict [("github_url", PyStr "https://github.com/acme/widgets")].

Definition analyze_route (request : AnalysisRequest) (w : Routes.World)
    (app : Routes.App) : result AnalysisResponse * Routes.App :=
  Routes.analyze_issue None false IssueAnalysis_parse request w app.

Definition analyze_batch (items : list pyval) (app : Routes.App)
  : result Routes.BatchResponse * Routes.App :=
  Routes.analyze_batch None false IssueAnalysis_parse str_field int_field
    items (fun _ => world_ok) app.

Definition cache_key : string := "acme/widgets#42".

End Demo.

(** ** prompts.py: the prompt of one issue *)

Set Warnings "-abstract-large-number".

Module Prompts.

(** [s[:n]] *)
Fixpoint str_take (n : nat) (s : string) : string :=
  match n, s with
  | S n', String c s' => String c (str_take n' s')
  | _, _ => EmptyString
  end.

(** [s[:n] if len(s) > n else s] *)
Definition truncate (n : nat) (s : string) : string :=
  if (n <? String.length s)%nat then str_take n s else s.

Definition nl : string := String "010" EmptyString.

(** The lines of the comments, or the placeholder when there are none. *)
Definition comments_text (truncated_comments : list string) : string :=
  match truncated_comments with
  | [] => "(No comments yet)"
  | _ => String.concat nl (map (fun c => "- " +:+ c) truncated_comments)
  end.

(** [repo_context or 'Unknown'] *)
Definition repository_text (repo_context : option string) : string :=
  match repo_context with
  | Some (String c r) => String c r
  | _ => "Unknown"
  end.

Section Prompt.

(** The two constant texts of the module: [SYSTEM_PROMPT] and the section
    built from [FEW_SHOT_EXAMPLES]. *)
Variables SYSTEM_PROMPT few_shot_section : string.

(** [create_analysis_prompt] *)
Definition create_analysis_prompt (issue_title issue_body : string)
    (comments : list string) (repo_context : option string) : string :=
  let truncated_body := truncate 8000 issue_body in
  let truncated_comments := map (truncate 1000) (take 20 comments) in
  SYSTEM_PROMPT +:+ nl +:+ nl +:+ few_shot_section +:+ nl +:+ nl
  +:+ "---" +:+ nl +:+ nl +:+ "NOW ANALYZE THIS ISSUE:" +:+ nl +:+ nl
  +:+ "Repository: " +:+ repository_text repo_context +:+ nl +:+ nl
  +:+ "Issue Title: " +:+ issue_title +:+ nl +:+ nl
  +:+ "Issue Body:" +:+ nl +:+ truncated_body +:+ nl +:+ nl
  +:+ "Comments from Community:" +:+ nl
  +:+ comments_text truncated_comments +:+ nl +:+ nl
  +:+ "---" +:+ nl +:+ nl
  +:+ "Provide ONLY the JSON analysis result, no additional text:" +:+ nl.

End Prompt.

End Prompts.

(** ** github_service.py: the comments of an issue *)

Module GitHubComments.

(** The comprehension over the decoded comments: an element whose
    [body] is true contributes it; an element without a [get] method
    raises. *)
Fixpoint comment_bodies (comments_data : list pyval) : result (list pyval) :=
  match comments_data with
  | [] => ret []
  | comment :: rest =>
      try! b <- py_get comment "body" PyNone;
      if Routes.py_bool b then
        try! body <- py_get comment "body" (PyStr EmptyString);
        try! bodies <- comment_bodies rest;
        ret (body :: bodies)
      else comment_bodies rest
  end.

(** The body that an element contributes, if any. *)
Definition body_of (d : list (string * pyval)) : option pyval :=
  match dict_lookup d "body" with
  | Some v => if Routes.py_bool v then Some v else None
  | None => None
  end.

(** [l[:n]] *)
Definition slice_to (n : Z) (l : list pyval) : list pyval :=
  if 0 <=? n then take (Z.to_nat n) l
  else take (length l - Z.to_nat (- n)) l.

(** [GitHubService._fetch_comments]: [exchange] is the decoded answer to
    the request for the comments, or the exception that the request, the
    status check or the decoding raised.  Iterating over a dict or a
    string gives strings, which have no [get]; the other values cannot
    be iterated over. *)
Definition _fetch_comments (exchange : result pyval) (max_comments : Z)
  : list pyval :=
  let comments :=
    try! comments_data <- exchange;
    match comments_data with
    | PyList l => comment_bodies l
    | PyDict [] | PyStr EmptyString => ret []
    | PyDict _ | PyStr _ => raise AttributeError
    | _ => raise TypeError
    end in
  match comments with
  | inr comments => slice_to max_comments comments
  | inl _ => []
  end.

End GitHubComments.

(** ** routes.py: the cache endpoints *)

Module CacheRoutes.

(** [routes.clear_cache]: the answer never depends on what was deleted. *)
Definition clear_cache (owner repo : string) (issue_number : Z)
    (w : CacheManager.redis_write) (app : Routes.App)
  : (bool * string) * Routes.App :=
  let cache_key := Routes.cache_key_of owner repo issue_number in
  let '(_, c) := CacheManager.delete (Routes.cache_manager app) cache_key w in
  ((true, "Cache cleared for " +:+ cache_key), Routes.with_cache c app).

(** [routes.clear_all_cache] *)
Definition clear_all_cache (w : CacheManager.redis_write) (app : Routes.App)
  : (bool * string) * Routes.App :=
  let '(_, c) := CacheManager.clear_all (Routes.cache_manager app) w in
  ((true, "All cache cleared"), Routes.with_cache c app).

End CacheRoutes.

(** ** Conditions used in the statements *)

Module Conditions.

(** The outcome is not an [HTTPException]: the services and libraries
    behind the endpoint do not raise the exception of the web layer. *)
Definition not_http {A : Type} (r : result A) : Prop :=
  match r with
  | inl e => is_HTTPException e = false
  | inr _ => True
  end.

Definition plain_world (w : Routes.World) : Prop :=
  not_http (Routes.issue_exchange w) /\ not_http (Routes.llm_reply w).

(** An analysis that satisfies the schema and the repairs at once. *)
Definition valid_analysis (a : IssueAnalysis) : Prop :=
  LLMService.in_valid_types (type a) = true /\
  1 <= score (priority_score a) <= 5 /\
  suggested_labels a <> [] /\
  (length (suggested_labels a) <= 5)%nat /\
  Forall (fun s => Py.strip s = s) (suggested_labels a).

(** Only blanks. *)
Definition blank (s : string) : Prop := Py.lstrip Py.isspace s = EmptyString.

(** The character does not occur in the text. *)
Fixpoint free_of (c : ascii) (s : string) : Prop :=
  match s with
  | String c' s' => c' <> c /\ free_of c s'
  | EmptyString => True
  end.

(** The number of entries that report an error. *)
Definition count_errors (entries : list Routes.BatchEntry) : Z :=
  Z.of_nat (length (List.filter
    (fun en => match en with Routes.EntryError _ => true | _ => false end)
    entries)).

End Conditions.

(** ** More concrete surroundings *)

Module Samples.

Definition nl : string := String "010" EmptyString.

(** One unexpired entry under the scenario's key, without and with a
    Redis client. *)
Definition entry_ok : CacheManager.entry pyval :=
  {| CacheManager.value := Demo.data_ok;
     CacheManager.expires_at := Demo.noon + 86400000000 |}.

Definition cache_one : CacheManager.t pyval :=
  CacheManager.with_memory Demo.cache_local {[ Demo.cache_key := entry_ok ]}.

(** A request that does not want the cache. *)
Definition request_fresh : AnalysisRequest :=
  {| github_url := "https://github.com/acme/widgets"; issue_number := 42;
     use_cache := false |}.

(** A later moment of the same day, with everything else unreachable. *)
Definition world_later : Routes.World :=
  {| Routes.redis_read := CacheManager.ReadRaises;
     Routes.redis_write := CacheManager.WriteRaises;
     Routes.repo_probe := raise (RequestError "timeout");
     Routes.issue_exchange := raise (RequestError "timeout");
     Routes.llm_reply := raise (RequestError "timeout");
     Routes.read_time := Demo.noon + 3600000000;
     Routes.write_time := Demo.noon + 3600000000;
     Routes.elapsed_ms := 3 |}.

(** Three more replies: an empty object, a list, and the scenario's
    reply with a type outside the enumeration. *)
Definition reply_empty : string := "{}".
Definition reply_list : string := "[1, 2]".

Definition reply_enhancement : string :=
  Demo.json_text "{'summary':'s','type':'enhancement','priority_score':{'score':4,'justification':'j'},'suggested_labels':['bug','urgent'],'potential_impact':'p'}".

Definition data_enhancement : pyval :=
  PyDict [("summary", PyStr "s"); ("type", PyStr "enhancement");
          ("priority_score",
           PyDict [("score", PyInt 4); ("justification", PyStr "j")]);
          ("suggested_labels", PyList [PyStr "bug"; PyStr "urgent"]);
          ("potential_impact", PyStr "p")].

Definition json_loads (s : string) : string + pyval :=
  if String.eqb s reply_empty then inr (PyDict [])
  else if String.eqb s reply_list then inr (PyList [PyInt 1; PyInt 2])
  else if String.eqb s reply_enhancement then inr data_enhancement
  else Demo.json_loads s.

(** A model that answers prose twice and then the scenario's reply, and
    a client that raises a decoding error of its own. *)
Definition model_flaky (n : nat) (prompt : string) : result string :=
  if (n <? 2)%nat then ret Demo.not_json else ret Demo.reply_ok.

Definition model_decode_error (n : nat) (prompt : string) : result string :=
  raise (JSONDecodeError "Expecting value: line 1 column 1 (char 0)").

Definition analyze_issue (model : nat -> string -> result string)
    (max_retries : Z) : result IssueAnalysis * list string :=
  LLMService.analyze_issue Demo.json_loads Demo.str_field
    Demo.create_analysis_prompt model
    "Crash on start" (Some "It crashes.") [] (Some "acme/widgets") 0
    max_retries [].

(** The decoded answer to a request for comments: two of the five
    elements have a body that is true. *)
Definition comments_answer : pyval :=
  PyList [PyDict [("body", PyStr "Same here")];
          PyDict [("body", PyStr EmptyString)];
          PyDict [("body", PyNone)];
          PyDict [("id", PyInt 1)];
          PyDict [("body", PyStr "+1")]].

End Samples.

(* ===================================================================== *)
(** * Part II: properties *)
(* ===================================================================== *)

(** ** The cache *)

Section CacheFacts.

Context {V : Type}.
Implicit Types (self : CacheManager.t V) (key : string) (v : V).

Import CacheManager.

(** A representable expiry is the sum of the time and the TTL. *)
Lemma expiry_inr now ttl e :
  expiry now ttl = inr e -> e = now + ttl * 1000000.
Proof.
  unfold expiry, Datetime.timedelta, Datetime.add, bind, ret, raise.
  destruct (_ && _); [| discriminate].
  destruct (_ && _); [| discriminate].
  congruence.
Qed.

(** The write reaches the in-process mapping when there is no client or
    the client raised. *)
Lemma set_in_process self key v ttl_arg now w e :
  redis_client self = false \/ w = WriteRaises ->
  expiry now (ttl_or ttl_arg (ttl self)) = inr e ->
  set self key v ttl_arg now w =
    (ret true,
     with_memory self
       (<[key := {| value := v; expires_at := e |}]> (in_memory_cache self))).
Proof.
  intros Htier He. unfold set. rewrite He.
  destruct Htier as [-> | ->]; [reflexivity |].
  destruct (redis_client self); reflexivity.
Qed.

(** A read that the primary does not answer is decided by the entry of
    the in-process mapping alone. *)
Lemma get_in_process self key now r :
  redis_client self = false \/ (forall v, r <> ReadValue v) ->
  get self key now r =
    match in_memory_cache self !! key with
    | Some e =>
        if now <? expires_at e then (Some (value e), self)
        else (None, with_memory self (base.delete key (in_memory_cache self)))
    | None => (None, self)
    end.
Proof.
  intros Hr. unfold get.
  destruct Hr as [-> | Hr]; [reflexivity |].
  destruct (redis_client self); [| reflexivity].
  destruct r as [| | v]; try reflexivity.
  exfalso. exact (Hr v eq_refl).
Qed.

(** Writing one key leaves the entries of the other keys alone. *)
Lemma set_other_key self key key' v ttl_arg now w r self' :
  set self key v ttl_arg now w = (r, self') ->
  key <> key' ->
  in_memory_cache self' !! key' = in_memory_cache self !! key'.
Proof.
  unfold set. intros Hset Hne.
  destruct (if redis_client self then _ else _).
  - injection Hset as _ <-. reflexivity.
  - destruct (expiry _ _); injection Hset as _ <-; [reflexivity |].
    cbn. by rewrite lookup_insert_ne.
Qed.

(** The client and the configured TTL never change. *)
Lemma set_keeps_config self key v ttl_arg now w r self' :
  set self key v ttl_arg now w = (r, self') ->
  redis_client self' = redis_client self /\ ttl self' = ttl self.
Proof.
  unfold set. intros Hset.
  destruct (if redis_client self then _ else _).
  - injection Hset as _ <-. done.
  - destruct (expiry _ _); injection Hset as _ <-; done.
Qed.

(** C7.  In the in-process tier (no Redis client, or the Redis write
    raised and the later Redis read gives no value), a value written at
    time [now] with TTL [t] seconds -- the override when it is given and
    not zero, else the configured TTL -- is returned unchanged by every
    [get] of the same key strictly before [now + t]; a [get] at or after
    [now + t] returns nothing and removes the entry from the mapping. *)
Theorem C7_in_process_ttl self key v ttl_arg now w e :
  redis_client self = false \/ w = WriteRaises ->
  expiry now (ttl_or ttl_arg (ttl self)) = inr e ->
  exists self',
    set self key v ttl_arg now w = (ret true, self') /\
    forall now' r,
      redis_client self = false \/ (forall v', r <> ReadValue v') ->
      (now' < now + ttl_or ttl_arg (ttl self) * 1000000 ->
       get self' key now' r = (Some v, self')) /\
      (now + ttl_or ttl_arg (ttl self) * 1000000 <= now' ->
       exists self'',
         get self' key now' r = (None, self'') /\
         in_memory_cache self'' !! key = None /\
         forall key', key' <> key ->
           in_memory_cache self'' !! key' = in_memory_cache self' !! key').
Proof.
  intros Htier He. eexists. split; [by apply set_in_process |].
  apply expiry_inr in He as ->.
  intros now' r Hr.
  rewrite get_in_process by done.
  cbn. rewrite lookup_insert_eq. cbn. split; intros Hnow.
  - apply Z.ltb_lt in Hnow. by rewrite Hnow.
  - apply Z.ltb_ge in Hnow. rewrite Hnow. eexists. split; [reflexivity |].
    cbn. split; [apply lookup_delete_eq |].
    intros key' Hne. by rewrite lookup_delete_ne.
Qed.

(** C8, amended.  When the Redis write raises and the expiry [now + ttl]
    is a datetime, [set] still returns [True] and the in-process mapping
    holds the value under the key, with that expiry; the other keys are
    untouched.  The exception of the primary is never the outcome of
    [set]. *)
Theorem C8_set_survives_primary_failure self key v ttl_arg now e :
  expiry now (ttl_or ttl_arg (ttl self)) = inr e ->
  exists self',
    set self key v ttl_arg now WriteRaises = (ret true, self') /\
    in_memory_cache self' !! key = Some {| value := v; expires_at := e |} /\
    e = now + ttl_or ttl_arg (ttl self) * 1000000 /\
    forall key', key' <> key ->
      in_memory_cache self' !! key' = in_memory_cache self !! key'.
Proof.
  intros He. eexists. split; [apply set_in_process; [by right | done] |].
  cbn. split; [apply lookup_insert_eq |].
  split; [by apply expiry_inr in He |].
  intros key' Hne. by rewrite lookup_insert_ne.
Qed.

(** C10.  With a client whose write succeeds, [set] returns [True] and
    the manager, hence its in-process mapping, is unchanged: the value
    lives in Redis only.  If the key was not in the mapping, a later
    [get] whose Redis read raises finds nothing. *)
Theorem C10_primary_write_skips_memory self key v ttl_arg now :
  redis_client self = true ->
  set self key v ttl_arg now WriteOk = (ret true, self) /\
  (in_memory_cache self !! key = None ->
   forall now', get self key now' ReadRaises = (None, self)).
Proof.
  intros Hc. split.
  - unfold set. by rewrite Hc.
  - intros Hnone now'. rewrite get_in_process; [by rewrite Hnone |].
    right. intros v'. discriminate.
Qed.

End CacheFacts.

(** Witnesses of the cache theorems: a fresh cache, the scenario's key
    and value, the configured TTL of one day. *)
Lemma C7_in_process_ttl_witness :
  exists self',
    CacheManager.set Demo.cache_local Demo.cache_key Demo.data_ok None
      Demo.noon CacheManager.WriteRaises = (ret true, self') /\
    CacheManager.get self' Demo.cache_key (Demo.noon + 86399999999)
      CacheManager.ReadNothing = (Some Demo.data_ok, self') /\
    fst (CacheManager.get self' Demo.cache_key (Demo.noon + 86400000000)
           CacheManager.ReadNothing) = None.
Proof.
  destruct (C7_in_process_ttl Demo.cache_local Demo.cache_key Demo.data_ok
              None Demo.noon CacheManager.WriteRaises
              (Demo.noon + 86400 * 1000000))
    as (self' & Hset & Hget); [left; reflexivity | reflexivity |].
  exists self'. split; [exact Hset |].
  split.
  - apply (Hget _ CacheManager.ReadNothing); [left; reflexivity |].
    cbn. unfold Demo.noon. lia.
  - destruct (Hget (Demo.noon + 86400000000) CacheManager.ReadNothing)
      as [_ Hafter]; [left; reflexivity |].
    destruct Hafter as (self'' & -> & _); [cbn; unfold Demo.noon; lia |].
    reflexivity.
Defined.

Lemma C8_set_survives_primary_failure_witness :
  exists self',
    CacheManager.set Demo.cache_redis Demo.cache_key Demo.data_ok None
      Demo.noon CacheManager.WriteRaises = (ret true, self') /\
    CacheManager.in_memory_cache self' !! Demo.cache_key =
      Some {| CacheManager.value := Demo.data_ok;
              CacheManager.expires_at := Demo.noon + 86400 * 1000000 |}.
Proof.
  destruct (C8_set_survives_primary_failure Demo.cache_redis Demo.cache_key
              Demo.data_ok None Demo.noon (Demo.noon + 86400 * 1000000))
    as (self' & Hset & Hmem & _); [reflexivity |].
  exists self'. split; [exact Hset | exact Hmem].
Defined.

(** C8 as stated fails: [set] can fail.  The in-process write is outside
    every [try], and with a TTL of some 9500 years the expiry is past
    [datetime.max]: the addition raises [OverflowError], which leaves
    [set], and nothing is written. *)
Lemma C8_set_overflow_counterexample :
  CacheManager.set Demo.cache_redis Demo.cache_key Demo.data_ok
    (Some 300000000000) Demo.noon CacheManager.WriteRaises
  = (raise OverflowError, Demo.cache_redis) /\
  ~ (forall (self : CacheManager.t pyval) key v ttl_arg now,
       exists self',
         CacheManager.set self key v ttl_arg now CacheManager.WriteRaises
         = (ret true, self')).
Proof.
  split; [reflexivity |].
  intros Hnever.
  destruct (Hnever Demo.cache_redis Demo.cache_key Demo.data_ok
              (Some 300000000000) Demo.noon) as (self' & Hset).
  discriminate Hset.
Qed.

Lemma C10_primary_write_skips_memory_witness :
  CacheManager.set Demo.cache_redis Demo.cache_key Demo.data_ok None
    Demo.noon CacheManager.WriteOk = (ret true, Demo.cache_redis) /\
  CacheManager.get Demo.cache_redis Demo.cache_key (Demo.noon + 1)
    CacheManager.ReadRaises = (None, Demo.cache_redis).
Proof.
  destruct (C10_primary_write_skips_memory Demo.cache_redis Demo.cache_key
              Demo.data_ok None Demo.noon) as [Hset Hget]; [reflexivity |].
  split; [exact Hset |].
  apply Hget. reflexivity.
Defined.

(** ** The validation and repair of a reply *)

Section ReplyFacts.

Variable json_loads : string -> string + pyval.
Variable str_field : pyval -> option string.

Import LLMService.

Local Abbreviation build_analysis := (LLMService.build_analysis str_field).
Local Abbreviation _parse_response :=
  (LLMService._parse_response json_loads str_field).

Lemma in_valid_types_In s : in_valid_types s = true -> In s valid_types.
Proof.
  unfold in_valid_types. rewrite existsb_exists.
  intros (x & Hx & Heq). apply String.eqb_eq in Heq. by subst.
Qed.

(** The type validator always answers a member of the enumeration. *)
Lemma _validate_type_valid v : In (_validate_type v) valid_types.
Proof.
  assert (In "other" valid_types) as Hother by (cbn; tauto).
  destruct v; try exact Hother. unfold _validate_type.
  destruct (in_valid_types s) eqn:Hs; [| exact Hother].
  by apply in_valid_types_In.
Qed.

(** A member passes unchanged, anything else becomes [other]. *)
Lemma _validate_type_cases v :
  (exists s, v = PyStr s /\ in_valid_types s = true /\ _validate_type v = s)
  \/ ((forall s, v = PyStr s -> in_valid_types s = false)
      /\ _validate_type v = "other").
Proof.
  destruct v; try (right; split; [intros ? [=] | reflexivity]).
  unfold _validate_type. destruct (in_valid_types s) eqn:Hs.
  - left. by exists s.
  - right. split; [| reflexivity]. by intros ? [= <-].
Qed.

(** The handlers of [_parse_response] let no [JSONDecodeError] out. *)
Lemma _parse_response_no_JSONDecodeError text e :
  _parse_response text = inl e -> is_JSONDecodeError e = false.
Proof.
  unfold LLMService._parse_response.
  destruct (bind _ _) as [e' | a]; [| discriminate].
  destruct (is_JSONDecodeError e') eqn:Hj; [by intros [= <-] |].
  destruct (is_KeyError e'); [by intros [= <-] |].
  by intros [= <-].
Qed.

(** A parsed reply was decoded and built without an exception. *)
Lemma _parse_response_inr text a :
  _parse_response text = inr a ->
  exists data,
    json_loads (extract_json text) = inr data /\ build_analysis data = inr a.
Proof.
  unfold LLMService._parse_response.
  destruct (json_loads (extract_json text)) as [msg | data]; cbn.
  - discriminate.
  - destruct (build_analysis data) as [e | a'] eqn:Hb.
    + destruct (is_JSONDecodeError e); [discriminate |].
      destruct (is_KeyError e); discriminate.
    + intros [= <-]. by exists data.
Qed.

(** An exception of the construction other than the two that are caught
    leaves [_parse_response] as it is. *)
Lemma _parse_response_raises text data e :
  json_loads (extract_json text) = inr data ->
  build_analysis data = inl e ->
  is_JSONDecodeError e = false -> is_KeyError e = false ->
  _parse_response text = inl e.
Proof.
  intros Hj Hb H1 H2. unfold LLMService._parse_response.
  rewrite Hj. cbn. by rewrite Hb, H1, H2.
Qed.

(** What a built analysis says about the decoded reply. *)
Lemma build_analysis_inr data a :
  build_analysis data = inr a ->
  exists d ps,
    data = PyDict d /\
    dict_get d "priority_score" (PyDict []) = PyDict ps /\
    type a = _validate_type (dict_get d "type" PyNone) /\
    _validate_priority_score (dict_get ps "score" PyNone)
      = inr (score (priority_score a)) /\
    suggested_labels a
      = _validate_labels (dict_get d "suggested_labels" (PyList [])).
Proof.
  unfold LLMService.build_analysis.
  destruct data as [| | | | | | d]; try discriminate. cbn.
  destruct (dict_get d "priority_score" (PyDict [])) as [| | | | | | ps] eqn:Hps;
    try discriminate. cbn.
  destruct (_validate_priority_score _) as [e | sc] eqn:Hsc; [discriminate |].
  cbn. unfold PriorityScore_init.
  destruct (str_field (dict_get ps "justification" _)) as [j |];
    [| discriminate].
  destruct (_ && _); [| discriminate]. cbn.
  unfold IssueAnalysis_init.
  destruct (str_field (dict_get d "summary" _)); [| discriminate].
  destruct (str_field (dict_get d "potential_impact" _)); [| discriminate].
  destruct (negb _); [discriminate |].
  intros [= <-]. cbn. exists d, ps. by rewrite Hsc.
Qed.

(** The type of a parsed reply is a member of the enumeration. *)
Lemma _parse_response_type text a :
  _parse_response text = inr a -> In (type a) valid_types.
Proof.
  intros Hp.
  destruct (_parse_response_inr _ _ Hp) as (data & _ & Hb).
  destruct (build_analysis_inr _ _ Hb) as (d & ps & _ & _ & -> & _).
  apply _validate_type_valid.
Qed.

(** A [priority_score] that is not a dict (a bare number, [null]) is not
    repaired either: the lookup of the score raises. *)
Lemma priority_score_not_dict text d v :
  json_loads (extract_json text) = inr (PyDict d) ->
  dict_lookup d "priority_score" = Some v ->
  (forall ps, v <> PyDict ps) ->
  _parse_response text = raise AttributeError.
Proof.
  intros Hj Hps Hv.
  apply _parse_response_raises with (data := PyDict d); try done.
  unfold LLMService.build_analysis. cbn.
  unfold dict_get at 1. rewrite Hps.
  destruct v; try reflexivity. by destruct (Hv d0).
Qed.

(** The type validator answers a type that the model class accepts. *)
Lemma _validate_type_accepted v : in_valid_types (_validate_type v) = true.
Proof.
  destruct v; try reflexivity. unfold _validate_type.
  by destruct (in_valid_types s) eqn:Hs.
Qed.

(** The value under [type] decides the type of the analysis and nothing
    else: not whether the reply is accepted, and no other field. *)
Lemma build_analysis_type_only d d' a' :
  (forall k, k <> "type" -> dict_lookup d' k = dict_lookup d k) ->
  build_analysis (PyDict d') = inr a' ->
  build_analysis (PyDict d) =
    inr {| summary := summary a';
           type := _validate_type (dict_get d "type" PyNone);
           priority_score := priority_score a';
           suggested_labels := suggested_labels a';
           potential_impact := potential_impact a' |}.
Proof.
  intros Hsame. unfold LLMService.build_analysis. cbn. unfold dict_get.
  rewrite (Hsame "summary"), (Hsame "priority_score"),
    (Hsame "suggested_labels"), (Hsame "potential_impact") by discriminate.
  destruct (match dict_lookup d "priority_score" with
            | Some v => v
            | None => PyDict []
            end) as [| | | | | | ps];
    try discriminate. cbn.
  destruct (_validate_priority_score _) as [e | sc]; [discriminate |].
  cbn. unfold PriorityScore_init.
  destruct (str_field _) as [j |]; [| discriminate].
  destruct (_ && _); [| discriminate]. cbn.
  unfold IssueAnalysis_init.
  destruct (str_field _) as [su |]; [| discriminate].
  destruct (str_field _) as [im |]; [| discriminate].
  rewrite !_validate_type_accepted. cbn.
  by intros [= <-].
Qed.

(** C9.  Every analysis that [_parse_response] returns has one of the
    five types: the supplied one when it is such a string, and [other]
    for any other supplied value and for a reply without a type.  And a
    value that is not one of the five is coerced, not refused: a reply
    is accepted whenever a reply that differs from it under [type] only
    is accepted, with the same fields and the type just described. *)
Theorem C9_type_is_enum_member text :
  (forall a,
     _parse_response text = inr a ->
     In (type a) valid_types /\
     exists d,
       json_loads (extract_json text) = inr (PyDict d) /\
       type a = match dict_lookup d "type" with
                | Some (PyStr s) => if in_valid_types s then s else "other"
                | _ => "other"
                end) /\
  (forall text' d d' a',
     json_loads (extract_json text) = inr (PyDict d) ->
     json_loads (extract_json text') = inr (PyDict d') ->
     (forall k, k <> "type" -> dict_lookup d' k = dict_lookup d k) ->
     _parse_response text' = inr a' ->
     _parse_response text =
       inr {| summary := summary a';
              type := match dict_lookup d "type" with
                      | Some (PyStr s) =>
                          if in_valid_types s then s else "other"
                      | _ => "other"
                      end;
              priority_score := priority_score a';
              suggested_labels := suggested_labels a';
              potential_impact := potential_impact a' |}).
Proof.
  assert (forall d,
            _validate_type (dict_get d "type" PyNone)
            = match dict_lookup d "type" with
              | Some (PyStr s) => if in_valid_types s then s else "other"
              | _ => "other"
              end) as Hcoerce.
  { intros d. unfold dict_get.
    destruct (dict_lookup d "type") as [[| | | | s | |] |]; try reflexivity.
    unfold _validate_type. by destruct (in_valid_types s). }
  split.
  - intros a Hp.
    destruct (_parse_response_inr _ _ Hp) as (data & Hj & Hb).
    destruct (build_analysis_inr _ _ Hb) as (d & ps & -> & _ & Hty & _).
    split; [rewrite Hty; apply _validate_type_valid |].
    exists d. split; [exact Hj |]. by rewrite Hty.
  - intros text' d d' a' Hj Hj' Hsame Hp'.
    destruct (_parse_response_inr _ _ Hp') as (data' & Hd' & Hb').
    rewrite Hj' in Hd'. injection Hd' as <-.
    unfold LLMService._parse_response. rewrite Hj.
    cbn -[LLMService.build_analysis].
    by rewrite (build_analysis_type_only d d' a' Hsame Hb'), Hcoerce.
Qed.

End ReplyFacts.

Lemma C9_type_is_enum_member_witness :
  LLMService._parse_response Samples.json_loads Demo.str_field
    Samples.reply_enhancement
  = inr {| summary := "s"; type := "other";
           priority_score := {| score := 4; justification := "j" |};
           suggested_labels := ["bug"; "urgent"];
           potential_impact := "p" |}.
Proof.
  destruct (C9_type_is_enum_member Samples.json_loads Demo.str_field
              Samples.reply_enhancement) as [_ Hcoerced].
  apply (Hcoerced Demo.reply_ok
           [("summary", PyStr "s"); ("type", PyStr "enhancement");
            ("priority_score",
             PyDict [("score", PyInt 4); ("justification", PyStr "j")]);
            ("suggested_labels", PyList [PyStr "bug"; PyStr "urgent"]);
            ("potential_impact", PyStr "p")]
           [("summary", PyStr "s"); ("type", PyStr "bug");
            ("priority_score",
             PyDict [("score", PyInt 4); ("justification", PyStr "j")]);
            ("suggested_labels", PyList [PyStr "bug"; PyStr "urgent"]);
            ("potential_impact", PyStr "p")]
           Demo.analysis_ok); [reflexivity | reflexivity | | reflexivity].
  intros k Hk. cbn [dict_lookup].
  destruct (String.eqb "summary" k); [reflexivity |].
  destruct (String.eqb "type" k) eqn:Ht; [| reflexivity].
  apply String.eqb_eq in Ht. by destruct Hk.
Defined.

(** ** Trimmed strings *)

Section StripFacts.

Variable p : ascii -> bool.

Lemma lstrip_no_lead s : Py.no_lead p (Py.lstrip p s).
Proof.
  induction s as [| c s IH]; cbn; [exact I |].
  destruct (p c) eqn:Hc; [exact IH | exact Hc].
Qed.

Lemma no_lead_lstrip s : Py.no_lead p s -> Py.lstrip p s = s.
Proof. destruct s as [| c s]; cbn; [done |]. by intros ->. Qed.

Lemma rstrip_no_lead s : Py.no_lead p s -> Py.no_lead p (Py.rstrip p s).
Proof.
  destruct s as [| c s]; cbn; [done |]. intros Hc.
  destruct (Py.rstrip p s); [by rewrite Hc | exact Hc].
Qed.

Lemma rstrip_cons c s :
  Py.rstrip p (String c s) =
  match Py.rstrip p s with
  | EmptyString => if p c then EmptyString else String c EmptyString
  | r => String c r
  end.
Proof. reflexivity. Qed.

Lemma rstrip_idem s : Py.rstrip p (Py.rstrip p s) = Py.rstrip p s.
Proof.
  induction s as [| c s IH]; [reflexivity |].
  rewrite rstrip_cons.
  destruct (Py.rstrip p s) as [| c' r] eqn:Hr.
  - destruct (p c) eqn:Hc; [reflexivity |].
    rewrite rstrip_cons. cbn. by rewrite Hc.
  - rewrite rstrip_cons, IH. reflexivity.
Qed.

End StripFacts.

(** [strip] is idempotent: its outcome has no blank at either end. *)
Lemma strip_idem s : Py.strip (Py.strip s) = Py.strip s.
Proof.
  unfold Py.strip.
  rewrite (no_lead_lstrip Py.isspace (Py.rstrip _ _)).
  - apply rstrip_idem.
  - apply rstrip_no_lead, lstrip_no_lead.
Qed.

(** ** The repair of the labels *)

Section LabelFacts.

Import LLMService LabelSpec.

(** The comprehension keeps the strings and the integers and trims their
    text. *)
Lemma omap_labels l :
  omap (fun label => if isinstance_str_int label
                     then Py.strip <$> py_str label else None) l
  = map (fun x => Py.strip (label_text x)) (List.filter isinstance_str_int l).
Proof.
  induction l as [| x l IH]; [reflexivity |].
  destruct x; cbn; rewrite IH; reflexivity.
Qed.

Lemma _validate_labels_sequence l :
  _validate_labels (PyList l) = labels_of_sequence l.
Proof.
  unfold _validate_labels, labels_of_sequence. rewrite omap_labels.
  by destruct (take 5 _).
Qed.

(** A value that is not a list gives the empty list. *)
Lemma _validate_labels_not_list v :
  (forall l, v <> PyList l) -> _validate_labels v = [].
Proof. destruct v; try reflexivity. intros H. by destruct (H l). Qed.

Lemma labels_of_sequence_length l :
  (1 <= length (labels_of_sequence l) <= 5)%nat.
Proof.
  unfold labels_of_sequence, general.
  pose proof (length_take
    (map (fun x => Py.strip (label_text x)) (List.filter isinstance_str_int l)) 5)
    as Hle.
  destruct (take 5 _) as [| s r]; cbn [length] in *; lia.
Qed.

Lemma labels_of_sequence_trimmed l :
  Forall (fun s => Py.strip s = s) (labels_of_sequence l).
Proof.
  unfold labels_of_sequence.
  assert (Forall (fun s => Py.strip s = s)
            (take 5 (map (fun x => Py.strip (label_text x))
                         (List.filter isinstance_str_int l)))) as H.
  { apply Forall_take, Forall_forall. intros s Hs.
    apply list_elem_of_In, in_map_iff in Hs as (x & <- & _). apply strip_idem. }
  destruct (take 5 _); [| exact H].
  unfold general. by repeat constructor.
Qed.

(** The default appears exactly when nothing is kept. *)
Lemma labels_of_sequence_default l :
  List.filter isinstance_str_int l = [] -> labels_of_sequence l = general.
Proof. unfold labels_of_sequence. by intros ->. Qed.

(** C2 as the specification words it fails on a sequence with an
    element that is neither a string nor an integer: the element is
    dropped, not coerced, whatever the coercion to text is. *)
Lemma C2_labels_claim_counterexample :
  ~ exists coerce : pyval -> string,
      _validate_labels (PyList [PyNone; PyStr "bug"])
      = labels_claimed coerce (PyList [PyNone; PyStr "bug"]).
Proof. intros [coerce H]. vm_compute in H. discriminate H. Qed.

Variable json_loads : string -> string + pyval.
Variable str_field : pyval -> option string.

(** C2, amended.  For every parsed reply whose [suggested_labels] is
    absent or a sequence, the labels of the analysis are those of the
    sequence (the empty one when absent): the elements that are strings
    or integers, each as its trimmed text, cut to five, and exactly
    general when that leaves nothing; so there are between one and five
    labels, none with a blank at either end, and a reply without
    [suggested_labels] yields exactly general. *)
Theorem C2_labels_of_parsed_reply text a d l :
  LLMService._parse_response json_loads str_field text = inr a ->
  json_loads (extract_json text) = inr (PyDict d) ->
  dict_get d "suggested_labels" (PyList []) = PyList l ->
  suggested_labels a = labels_of_sequence l /\
  (1 <= length (suggested_labels a) <= 5)%nat /\
  Forall (fun s => Py.strip s = s) (suggested_labels a) /\
  (dict_lookup d "suggested_labels" = None -> suggested_labels a = ["general"]).
Proof.
  intros Hp Hj Hl.
  destruct (_parse_response_inr _ _ _ _ Hp) as (data & Hj' & Hb).
  rewrite Hj in Hj'. injection Hj' as <-.
  destruct (build_analysis_inr _ _ _ Hb) as (d' & ps & [= <-] & _ & _ & _ & Hlab).
  rewrite Hl, _validate_labels_sequence in Hlab.
  rewrite Hlab. split; [reflexivity |].
  split; [apply labels_of_sequence_length |].
  split; [apply labels_of_sequence_trimmed |].
  intros Hnone. unfold dict_get in Hl. rewrite Hnone in Hl.
  injection Hl as <-. reflexivity.
Qed.

End LabelFacts.

Lemma C2_labels_of_parsed_reply_witness :
  exists a,
    LLMService._parse_response Demo.json_loads Demo.str_field Demo.reply_bare
      = inr a /\
    suggested_labels a = ["general"].
Proof.
  eexists. split; [reflexivity |].
  destruct (C2_labels_of_parsed_reply Demo.json_loads Demo.str_field
              Demo.reply_bare _ _ [] eq_refl eq_refl eq_refl)
    as (_ & _ & _ & Hdefault).
  apply Hdefault. reflexivity.
Defined.

Example labels_mixed :
  LLMService._validate_labels
    (PyList [PyStr "  bug "; PyInt 7; PyNone; PyBool true;
             PyFloat (S754_zero false); PyStr "a"; PyStr "b"; PyStr "c"])
  = ["bug"; "7"; "True"; "a"; "b"].
Proof. reflexivity. Qed.

(** ** The priority score *)

Section ScoreFacts.

Import LLMService.

(** Outside the infinite floats the validator returns a score between 1
    and 5: the integer conversion when it is in that range, else 3. *)
Lemma _validate_priority_score_repairs v :
  (forall sgn, v <> PyFloat (S754_infinity sgn)) ->
  exists n,
    _validate_priority_score v = inr n /\ 1 <= n <= 5 /\
    match PyInt.int v with
    | inr z => if (1 <=? z) && (z <=? 5) then n = z else n = 3
    | inl _ => n = 3
    end.
Proof.
  intros Hfin. unfold _validate_priority_score.
  destruct (PyInt.int v) as [e | z] eqn:Hint.
  - assert (is_ValueError e || is_TypeError e = true) as ->.
    { destruct v as [| b | z | f | s | l | d]; cbn in Hint;
        try discriminate; try (by injection Hint as <-).
      - destruct f as [sg | sg | | sg m ex]; cbn in Hint; try discriminate.
        + by destruct (Hfin sg).
        + by injection Hint as <-.
      - destruct (PyInt.of_str s); [discriminate | by injection Hint as <-]. }
    exists 3. split; [reflexivity |]. split; [lia | reflexivity].
  - destruct ((1 <=? z) && (z <=? 5)) eqn:Hr.
    + exists z. split; [reflexivity |]. split; [lia | reflexivity].
    + exists 3. split; [reflexivity |]. split; [lia | reflexivity].
Qed.

(** An infinite float leaves the validator as an [OverflowError]. *)
Lemma _validate_priority_score_infinite sgn :
  _validate_priority_score (PyFloat (S754_infinity sgn)) = raise OverflowError.
Proof. reflexivity. Qed.

Example score_examples :
  _validate_priority_score (PyInt 0) = ret 3 /\
  _validate_priority_score (PyInt 7) = ret 3 /\
  _validate_priority_score (PyStr "high") = ret 3 /\
  _validate_priority_score (PyStr " 4 ") = ret 4 /\
  _validate_priority_score (PyBool true) = ret 1 /\
  _validate_priority_score PyNone = ret 3 /\
  _validate_priority_score (PyFloat (S754_finite false 9 (-1))) = ret 4 /\
  _validate_priority_score (PyFloat S754_nan) = ret 3.
Proof. repeat split; reflexivity. Qed.

End ScoreFacts.

(** ** The retry loop *)

Lemma append_ne (s t : string) : t <> EmptyString -> s +:+ t <> s.
Proof.
  intros Ht. induction s as [| c s IH]; cbn.
  - exact Ht.
  - intros [= H]. by apply IH.
Qed.

Section RetryFacts.

Variable json_loads : string -> string + pyval.
Variable str_field : pyval -> option string.
Variable create_analysis_prompt :
  string -> option string -> list string -> option string -> result string.
Variable generate_content : nat -> string -> result string.

Import LLMService.

Local Abbreviation _parse_response :=
  (LLMService._parse_response json_loads str_field).
Local Abbreviation _call_gemini := (LLMService._call_gemini generate_content).
Local Abbreviation reply := (LLMService.reply generate_content).
Local Abbreviation attempt :=
  (LLMService.attempt json_loads str_field generate_content).
Local Abbreviation analyze_issue :=
  (LLMService.analyze_issue json_loads str_field create_analysis_prompt
     generate_content).

Variables (issue_title : string) (issue_body : option string)
  (comments : list string) (repo_context : option string).

Local Abbreviation run :=
  (analyze_issue issue_title issue_body comments repo_context).

Lemma _call_gemini_reply p sent :
  _call_gemini p sent = (reply (length sent) p, sent ++ [p]).
Proof.
  unfold LLMService._call_gemini, LLMService.reply.
  destruct (generate_content (length sent) p) as [e | text]; [reflexivity |].
  by destruct (String.eqb text EmptyString).
Qed.

(** An attempt does not end in a [JSONDecodeError] unless the model call
    raised one. *)
Lemma attempt_JSONDecodeError n p e :
  attempt n p = inl e -> is_JSONDecodeError e = true -> reply n p = inl e.
Proof.
  unfold LLMService.attempt.
  destruct (reply n p) as [e' | text]; cbn; [congruence |].
  intros Hp He. apply _parse_response_no_JSONDecodeError in Hp. congruence.
Qed.

(** When the builder of the prompt raises, every round raises the same
    exception before the model is called: the retries are used up without
    a request, and the exception is the outcome. *)
Lemma analyze_issue_unbuilt e max_retries k :
  create_analysis_prompt issue_title issue_body comments repo_context = inl e ->
  forall retry_count sent,
    Z.to_nat (max_retries - retry_count) = k ->
    run retry_count max_retries sent =
      (raise (if is_JSONDecodeError e then UnboundLocalError else e), sent).
Proof.
  intros He. induction k as [| k IH]; intros retry_count sent Hk;
    rewrite analyze_issue_equation_1, He;
    (destruct (is_JSONDecodeError e); [reflexivity |]).
  - destruct (Z_lt_dec _ _); [lia | reflexivity].
  - destruct (Z_lt_dec _ _); [| reflexivity]. apply IH. lia.
Qed.

(** From here on the prompt is built: the issue has a body. *)
Section Built.

Variable prompt : string.
Hypothesis prompt_built :
  create_analysis_prompt issue_title issue_body comments repo_context
  = inr prompt.

(** One round of [analyze_issue]: the branch that sends the prompt with
    the appended instruction is never taken, since [response] is unbound
    whenever the exception is a [JSONDecodeError]. *)
Lemma analyze_issue_step retry_count max_retries sent :
  run retry_count max_retries sent =
  match attempt (length sent) prompt with
  | inr analysis => (ret analysis, sent ++ [prompt])
  | inl e =>
      if is_JSONDecodeError e then (raise UnboundLocalError, sent ++ [prompt])
      else if Z_lt_dec retry_count max_retries
           then run (retry_count + 1) max_retries (sent ++ [prompt])
           else (raise e, sent ++ [prompt])
  end.
Proof.
  rewrite analyze_issue_equation_1, prompt_built. cbv zeta.
  rewrite _call_gemini_reply. unfold LLMService.attempt.
  destruct (reply (length sent) prompt) as [e | text]; cbn.
  - destruct (is_JSONDecodeError e); [reflexivity |].
    by destruct (Z_lt_dec retry_count max_retries).
  - destruct (_parse_response text) as [e | a] eqn:Hp; [| reflexivity].
    rewrite (_parse_response_no_JSONDecodeError _ _ _ _ Hp).
    by destruct (Z_lt_dec retry_count max_retries).
Qed.

(** Whatever the model does, [analyze_issue] returns after at most
    [max_retries - retry_count + 1] calls of the model, each with the
    unchanged prompt. *)
Lemma analyze_issue_sent max_retries k :
  forall retry_count sent,
    Z.to_nat (max_retries - retry_count) = k ->
    exists j, (1 <= j <= S k)%nat /\
      snd (run retry_count max_retries sent) = sent ++ repeat prompt j.
Proof.
  induction k as [| k IH]; intros retry_count sent Hk;
    rewrite analyze_issue_step.
  - exists 1%nat. split; [lia |].
    destruct (attempt _ _) as [e | a]; [| reflexivity].
    destruct (is_JSONDecodeError e); [reflexivity |].
    destruct (Z_lt_dec _ _); [lia | reflexivity].
  - destruct (attempt _ _) as [e | a]; [| exists 1%nat; split; [lia | done]].
    destruct (is_JSONDecodeError e); [exists 1%nat; split; [lia | done] |].
    destruct (Z_lt_dec _ _); [| exists 1%nat; split; [lia | done]].
    destruct (IH (retry_count + 1) (sent ++ [prompt])) as (j & Hj & ->); [lia |].
    exists (S j). split; [lia |]. by rewrite <- app_assoc.
Qed.

Lemma analyze_issue_inr_built max_retries k :
  forall retry_count sent a sent',
    Z.to_nat (max_retries - retry_count) = k ->
    run retry_count max_retries sent = (inr a, sent') ->
    exists text, _parse_response text = inr a.
Proof.
  induction k as [| k IH]; intros retry_count sent a sent' Hk;
    rewrite analyze_issue_step; unfold LLMService.attempt.
  - destruct (reply _ _) as [e | text]; cbn.
    + destruct (is_JSONDecodeError e); [discriminate |].
      destruct (Z_lt_dec _ _); [lia | discriminate].
    + destruct (_parse_response text) as [e | a'] eqn:Hp.
      * destruct (is_JSONDecodeError e); [discriminate |].
        destruct (Z_lt_dec _ _); [lia | discriminate].
      * intros [= <- _]. by exists text.
  - destruct (reply _ _) as [e | text]; cbn.
    + destruct (is_JSONDecodeError e); [discriminate |].
      destruct (Z_lt_dec _ _); [| discriminate].
      apply IH. lia.
    + destruct (_parse_response text) as [e | a'] eqn:Hp.
      * destruct (is_JSONDecodeError e); [discriminate |].
        destruct (Z_lt_dec _ _); [| discriminate].
        apply IH. lia.
      * intros [= <- _]. by exists text.
Qed.

(** When every attempt fails, the retries are used up and the exception
    of the last attempt is the outcome. *)
Lemma analyze_issue_all_fail max_retries :
  (forall n, exists e, attempt n prompt = inl e /\ is_JSONDecodeError e = false) ->
  forall k retry_count sent,
    Z.to_nat (max_retries - retry_count) = k ->
    exists e,
      run retry_count max_retries sent = (inl e, sent ++ repeat prompt (S k)) /\
      attempt (length sent + k) prompt = inl e.
Proof.
  intros Hfail. induction k as [| k IH]; intros retry_count sent Hk;
    rewrite analyze_issue_step;
    destruct (Hfail (length sent)) as (e & He & Hj); rewrite He, Hj.
  - destruct (Z_lt_dec _ _); [lia |].
    exists e. split; [reflexivity |]. by rewrite Nat.add_0_r.
  - destruct (Z_lt_dec _ _); [| lia].
    destruct (IH (retry_count + 1) (sent ++ [prompt])) as (e' & -> & He'); [lia |].
    exists e'. split; [by rewrite <- app_assoc |].
    rewrite length_app in He'. cbn in He'.
    by replace (length sent + S k)%nat with (length sent + 1 + k)%nat by lia.
Qed.

(** C1, on the code.  When every reply is text that does not decode,
    [analyze_issue] calls the model [max_retries + 1] times, every time
    with the unchanged prompt -- the prompt with the appended JSON-only
    instruction is never sent -- and the exception that comes out is the
    [ValueError] of [_parse_response], not the one that names the
    retries. *)
Theorem C1_unparseable_replies max_retries :
  0 <= max_retries ->
  (forall n p, exists text msg,
      generate_content n p = inr text /\ text <> EmptyString /\
      json_loads (extract_json text) = inl msg) ->
  exists msg,
    run 0 max_retries [] =
      (raise (ValueError ("Invalid JSON in response: " +:+ msg)),
       repeat prompt (Z.to_nat (max_retries + 1))) /\
    ValueError ("Invalid JSON in response: " +:+ msg) <>
      ValueError ("Failed to parse LLM response after "
                  +:+ Py.str_of_int max_retries +:+ " retries") /\
    ~ In (prompt +:+ json_only) (repeat prompt (Z.to_nat (max_retries + 1))).
Proof.
  intros Hmax Hprose.
  assert (forall n, exists msg,
             attempt n prompt
             = inl (ValueError ("Invalid JSON in response: " +:+ msg))) as Hatt.
  { intros n. destruct (Hprose n prompt) as (text & msg & Hg & Hne & Hj).
    exists msg. unfold LLMService.attempt, LLMService.reply. rewrite Hg.
    apply String.eqb_neq in Hne. rewrite Hne. cbn.
    unfold LLMService._parse_response. by rewrite Hj. }
  destruct (analyze_issue_all_fail max_retries) with
    (k := Z.to_nat max_retries) (retry_count := 0) (sent := @nil string)
    as (e & Hrun & Hlast).
  { intros n. destruct (Hatt n) as (msg & ->). by eexists. }
  { f_equal. lia. }
  destruct (Hatt (length (@nil string) + Z.to_nat max_retries)%nat) as (msg & Hmsg).
  rewrite Hmsg in Hlast. injection Hlast as <-.
  exists msg. split; [| split].
  - rewrite Hrun. cbn [app]. do 2 f_equal.
    rewrite Z2Nat.inj_add by lia. cbn. lia.
  - discriminate.
  - intros Hin. apply repeat_spec in Hin.
    revert Hin. apply append_ne. discriminate.
Qed.

(** C5, on the code.  A reply that decodes to a dict whose score is an
    infinite float is not repaired: the validator, and with it
    [_parse_response], raises [OverflowError], and a model that keeps
    sending the reply uses up every retry before [analyze_issue] raises
    it. *)
Theorem C5_infinite_score_raises max_retries text d ps sgn :
  0 <= max_retries ->
  (forall n p, generate_content n p = inr text) ->
  text <> EmptyString ->
  json_loads (extract_json text) = inr (PyDict d) ->
  dict_lookup d "priority_score" = Some (PyDict ps) ->
  dict_lookup ps "score" = Some (PyFloat (S754_infinity sgn)) ->
  _validate_priority_score (PyFloat (S754_infinity sgn)) = raise OverflowError /\
  _parse_response text = raise OverflowError /\
  run 0 max_retries [] =
    (raise OverflowError, repeat prompt (Z.to_nat (max_retries + 1))).
Proof.
  intros Hmax Hg Hne Hj Hps Hsc.
  assert (_parse_response text = raise OverflowError) as Hp.
  { apply _parse_response_raises with (data := PyDict d); try done.
    unfold LLMService.build_analysis. cbn.
    unfold dict_get at 1. rewrite Hps. cbn.
    unfold dict_get at 1. by rewrite Hsc. }
  split; [reflexivity |]. split; [exact Hp |].
  assert (forall n, attempt n prompt = inl OverflowError) as Hatt.
  { intros n. unfold LLMService.attempt, LLMService.reply. rewrite Hg.
    apply String.eqb_neq in Hne. by rewrite Hne. }
  destruct (analyze_issue_all_fail max_retries) with
    (k := Z.to_nat max_retries) (retry_count := 0) (sent := @nil string)
    as (e & Hrun & Hlast).
  { intros n. rewrite Hatt. by eexists. }
  { f_equal. lia. }
  rewrite Hatt in Hlast. injection Hlast as <-.
  rewrite Hrun. cbn [app]. do 2 f_equal.
  rewrite Z2Nat.inj_add by lia. cbn. lia.
Qed.

End Built.

(** An analysis that [analyze_issue] returns is the parse of a reply. *)
Lemma analyze_issue_inr max_retries k :
  forall retry_count sent a sent',
    Z.to_nat (max_retries - retry_count) = k ->
    run retry_count max_retries sent = (inr a, sent') ->
    exists text, _parse_response text = inr a.
Proof.
  intros retry_count sent a sent' Hk.
  destruct (create_analysis_prompt issue_title issue_body comments repo_context)
    as [e | prompt] eqn:Hb.
  - rewrite (analyze_issue_unbuilt e max_retries k Hb _ _ Hk). discriminate.
  - by apply (analyze_issue_inr_built prompt Hb max_retries k).
Qed.

(** The analysis that reaches the caller has a type of the enumeration. *)
Lemma analyze_issue_type_valid retry_count max_retries sent a sent' :
  run retry_count max_retries sent = (inr a, sent') ->
  In (type a) valid_types.
Proof.
  intros Hrun.
  destruct (analyze_issue_inr max_retries _ retry_count sent a sent' eq_refl Hrun)
    as (text & Hp).
  by apply (_parse_response_type json_loads str_field text).
Qed.

End RetryFacts.

Lemma C1_unparseable_replies_witness :
  exists msg,
    Demo.analyze_issue Demo.model_prose 3
    = (raise (ValueError ("Invalid JSON in response: " +:+ msg)),
       repeat "Issue Title: Crash on start" 4).
Proof.
  destruct (C1_unparseable_replies Demo.json_loads Demo.str_field
              Demo.create_analysis_prompt Demo.model_prose
              "Crash on start" (Some "It crashes.") [] (Some "acme/widgets")
              "Issue Title: Crash on start" eq_refl 3)
    as (msg & Hrun & _).
  - lia.
  - intros n p. exists Demo.not_json, Demo.decode_error.
    split; [reflexivity |]. split; [discriminate | reflexivity].
  - exists msg. exact Hrun.
Defined.

Lemma C5_infinite_score_raises_witness :
  LLMService._parse_response Demo.json_loads Demo.str_field Demo.reply_inf
    = raise OverflowError /\
  Demo.analyze_issue Demo.model_inf 3
    = (raise OverflowError, repeat "Issue Title: Crash on start" 4).
Proof.
  destruct (C5_infinite_score_raises Demo.json_loads Demo.str_field
              Demo.create_analysis_prompt Demo.model_inf
              "Crash on start" (Some "It crashes.") [] (Some "acme/widgets")
              "Issue Title: Crash on start" eq_refl 3
              Demo.reply_inf
              [("summary", PyStr "s"); ("type", PyStr "bug");
               ("priority_score",
                PyDict [("score", PyFloat (S754_infinity false));
                        ("justification", PyStr "j")]);
               ("suggested_labels", PyList []);
               ("potential_impact", PyStr "p")]
              [("score", PyFloat (S754_infinity false));
               ("justification", PyStr "j")]
              false)
    as (_ & Hp & Hrun);
    [lia | reflexivity | discriminate | reflexivity | reflexivity
     | reflexivity |].
  split; [exact Hp | exact Hrun].
Defined.

(** ** The URL resolver *)

Section ResolverFacts.

Import GitHubService.

Lemma last2_length (parts : list string) x :
  Py.last2 parts = Some x -> (2 <= length parts)%nat.
Proof.
  unfold Py.last2. rewrite <- (length_rev parts).
  destruct (rev parts) as [| a [| b r]]; try discriminate. cbn. lia.
Qed.

(** The resolver succeeds exactly when the marker occurs in the stripped
    text and the last two pieces between slashes, the last one without
    its occurrences of [.git], are not empty; it then answers them in
    their order. *)
Lemma parse_github_url_inr url owner repo :
  parse_github_url url = inr (owner, repo) <->
  exists last,
    let u := Py.rstrip_char "/" (Py.strip url) in
    Py.contains "github.com" u = true /\
    Py.last2 (Py.split "/" u) = Some owner /\
    Py.last1 (Py.split "/" u) = Some last /\
    repo = Py.remove_all ".git" last /\
    owner <> EmptyString /\ repo <> EmptyString.
Proof.
  unfold parse_github_url. cbv zeta.
  set (u := Py.rstrip_char "/" (Py.strip url)). split.
  - destruct (Py.contains "github.com" u); [| discriminate].
    destruct (2 <=? length (Py.split "/" u))%nat; [| discriminate].
    destruct (Py.last2 (Py.split "/" u)) as [o |]; [| discriminate].
    destruct (Py.last1 (Py.split "/" u)) as [l |]; [| discriminate].
    destruct (String.eqb o EmptyString) eqn:Ho; [discriminate |].
    destruct (String.eqb (Py.remove_all ".git" l) EmptyString) eqn:Hr;
      [discriminate |].
    cbn. intros [= <- <-]. exists l.
    apply String.eqb_neq in Ho, Hr. done.
  - intros (l & -> & Ho & Hl & -> & Hne1 & Hne2).
    rewrite (proj2 (Nat.leb_le _ _) (last2_length _ _ Ho)), Ho, Hl.
    apply String.eqb_neq in Hne1, Hne2. by rewrite Hne1, Hne2.
Qed.

(** Otherwise it raises the [ValueError] that carries the stripped URL. *)
Lemma parse_github_url_inl url e :
  parse_github_url url = inl e ->
  e = ValueError ("Invalid GitHub URL: " +:+ Py.rstrip_char "/" (Py.strip url)).
Proof.
  unfold parse_github_url. cbv zeta.
  destruct (if Py.contains _ _ then _ else _); [discriminate |].
  by intros [= <-].
Qed.

Example resolver_scenario :
  parse_github_url "https://github.com/acme/widgets" = ret ("acme", "widgets") /\
  parse_github_url " https://github.com/acme/widgets.git/ "
    = ret ("acme", "widgets") /\
  parse_github_url "https://gitlab.com/acme/widgets"
    = raise (ValueError "Invalid GitHub URL: https://gitlab.com/acme/widgets") /\
  parse_github_url "https://github.com//"
    = raise (ValueError "Invalid GitHub URL: https://github.com").
Proof. repeat split; reflexivity. Qed.

(** C3, on the code.  For the repository [octocat.github.io] the
    resolver does not answer the last segment: [.git] is removed where
    it occurs inside the name, not only as a suffix. *)
Theorem C3_git_removed_inside_segment :
  parse_github_url "https://github.com/octocat/octocat.github.io"
    = ret ("octocat", "octocathub.io") /\
  Py.last1 (Py.split "/" "https://github.com/octocat/octocat.github.io")
    = Some "octocat.github.io".
Proof. split; reflexivity. Qed.

End ResolverFacts.

(** ** The endpoints *)

Section RouteFacts.

Variable GITHUB_TOKEN : option string.
Variable DEBUG : bool.
Variable IssueAnalysis_parse : pyval -> result IssueAnalysis.
Variable str_field : pyval -> option string.
Variable int_field : pyval -> option Z.

Import Routes.

Local Abbreviation analyze_issue_body :=
  (Routes.analyze_issue_body GITHUB_TOKEN IssueAnalysis_parse).
Local Abbreviation analyze_issue :=
  (Routes.analyze_issue GITHUB_TOKEN DEBUG IssueAnalysis_parse).
Local Abbreviation item_request := (Routes.item_request str_field int_field).
Local Abbreviation batch_loop :=
  (Routes.batch_loop GITHUB_TOKEN DEBUG IssueAnalysis_parse str_field int_field).
Local Abbreviation analyze_batch :=
  (Routes.analyze_batch GITHUB_TOKEN DEBUG IssueAnalysis_parse str_field
     int_field).
Local Abbreviation well_formed := (Routes.well_formed str_field int_field).

(** The endpoint raises nothing but [HTTPException]. *)
Lemma analyze_issue_raises_HTTPException request w app e app' :
  analyze_issue request w app = (inl e, app') -> is_HTTPException e = true.
Proof.
  unfold Routes.analyze_issue.
  destruct (analyze_issue_body request w app) as [[e0 | r] app0]; [| discriminate].
  destruct (is_HTTPException e0) eqn:He; intros [= <- _]; [exact He | reflexivity].
Qed.

(** A URL that the resolver rejects is a 400 with the resolver's text. *)
Lemma analyze_issue_invalid_url request w app e :
  GitHubService.parse_github_url (github_url request) = inl e ->
  analyze_issue request w app =
    (raise (HTTPException 400 (exn_str e)), with_stats incr_errors app).
Proof.
  intros Hp. unfold Routes.analyze_issue, Routes.analyze_issue_body.
  by rewrite Hp.
Qed.

(** What is left of the body once the cache has been passed without an
    answer: [app1] is the state after the lookup. *)
Lemma analyze_issue_body_after_cache request w app owner repo :
  GitHubService.parse_github_url (github_url request) = inr (owner, repo) ->
  cache_silent request w app owner repo ->
  exists app1,
    analyze_issue_body request w app =
    if negb (GitHubService.validate_repository (repo_probe w)) then
      (raise (HTTPException 404
                ("Repository " +:+ owner +:+ "/" +:+ repo
                 +:+ " not found or is private")),
       with_stats incr_errors app1)
    else
      match GitHubService.fetch_issue GITHUB_TOKEN owner repo
              (issue_number request) (issue_exchange w) with
      | inl e => (raise e, app1)
      | inr github_issue =>
          match llm_reply w with
          | inl e => (raise e, app1)
          | inr analysis =>
              match CacheManager.set (cache_manager app1)
                      (cache_key_of owner repo (issue_number request))
                      (IssueAnalysis_dict analysis) None
                      (write_time w) (redis_write w) with
              | (inl e, c) => (raise e, with_cache c app1)
              | (inr _, c) =>
                  (ret {| success := true; data := analysis;
                          metadata :=
                            {| analysis_time_ms := elapsed_ms w;
                               cached := false;
                               issue_url := GitHubService.url github_issue;
                               meta_author :=
                                 Some (GitHubService.author github_issue);
                               meta_state :=
                                 Some (GitHubService.state github_issue);
                               existing_labels :=
                                 Some (GitHubService.labels github_issue) |} |},
                   with_stats (append_time (elapsed_ms w))
                     (with_stats incr_total (with_cache c app1)))
              end
          end
      end.
Proof.
  intros Hp Hc. unfold Routes.analyze_issue_body. rewrite Hp.
  destruct Hc as [Hc | Hc].
  - rewrite Hc. exists app.
    destruct (negb _); [reflexivity |].
    destruct (GitHubService.fetch_issue _ _ _ _ _); [reflexivity |].
    destruct (llm_reply w); [reflexivity |].
    by destruct (CacheManager.set _ _ _ _ _ _) as [[e | b] c].
  - destruct (use_cache request).
    + destruct (CacheManager.get _ _ _ _) as [[d |] c]; cbn in Hc.
      * rewrite Hc. eexists.
        destruct (negb _); [reflexivity |].
        destruct (GitHubService.fetch_issue _ _ _ _ _); [reflexivity |].
        destruct (llm_reply w); [reflexivity |].
        by destruct (CacheManager.set _ _ _ _ _ _) as [[e | b] c'].
      * eexists.
        destruct (negb _); [reflexivity |].
        destruct (GitHubService.fetch_issue _ _ _ _ _); [reflexivity |].
        destruct (llm_reply w); [reflexivity |].
        by destruct (CacheManager.set _ _ _ _ _ _) as [[e | b] c'].
    + exists app.
      destruct (negb _); [reflexivity |].
      destruct (GitHubService.fetch_issue _ _ _ _ _); [reflexivity |].
      destruct (llm_reply w); [reflexivity |].
      by destruct (CacheManager.set _ _ _ _ _ _) as [[e | b] c].
Qed.

(** A repository whose probe is not a 200 is a 404. *)
Lemma analyze_issue_missing_repository request w app owner repo :
  GitHubService.parse_github_url (github_url request) = inr (owner, repo) ->
  cache_silent request w app owner repo ->
  GitHubService.validate_repository (repo_probe w) = false ->
  fst (analyze_issue request w app) =
    raise (HTTPException 404
             ("Repository " +:+ owner +:+ "/" +:+ repo
              +:+ " not found or is private")).
Proof.
  intros Hp Hc Hv. unfold Routes.analyze_issue.
  destruct (analyze_issue_body_after_cache _ _ _ _ _ Hp Hc) as (app1 & ->).
  by rewrite Hv.
Qed.

(** C4, on the code.  For an issue that the REST API does not find (a
    404 answer to the issue request of an existing repository),
    [fetch_issue] raises the [ValueError] that names the issue, the owner
    and the repository, and the endpoint, which has no handler for it,
    answers 500 and counts an error. *)
Theorem C4_missing_issue_is_500 request w app owner repo :
  GitHubService.parse_github_url (github_url request) = inr (owner, repo) ->
  cache_silent request w app owner repo ->
  GitHubService.validate_repository (repo_probe w) = true ->
  issue_exchange w = raise (HTTPStatusError 404) ->
  GitHubService.fetch_issue GITHUB_TOKEN owner repo (issue_number request)
      (issue_exchange w)
    = raise (ValueError ("Issue #" +:+ Py.str_of_int (issue_number request)
                         +:+ " not found in " +:+ owner +:+ "/" +:+ repo)) /\
  fst (analyze_issue request w app) =
    raise (HTTPException 500
             (if DEBUG
              then "Internal server error: Issue #"
                   +:+ Py.str_of_int (issue_number request)
                   +:+ " not found in " +:+ owner +:+ "/" +:+ repo
              else "Internal server error")).
Proof.
  intros Hp Hc Hv Hx.
  assert (GitHubService.fetch_issue GITHUB_TOKEN owner repo
            (issue_number request) (issue_exchange w)
          = raise (ValueError ("Issue #" +:+ Py.str_of_int (issue_number request)
                               +:+ " not found in " +:+ owner +:+ "/" +:+ repo)))
    as Hf by (by rewrite Hx).
  split; [exact Hf |].
  unfold Routes.analyze_issue.
  destruct (analyze_issue_body_after_cache _ _ _ _ _ Hp Hc) as (app1 & ->).
  rewrite Hv, Hf. cbn. by destruct DEBUG.
Qed.

(** A batch of more than five items is refused before any item is
    looked at: the state is unchanged. *)
Lemma analyze_batch_too_large items worlds app :
  (5 < length items)%nat ->
  analyze_batch items worlds app =
    (raise (HTTPException 400 "Maximum 5 issues per batch"), app).
Proof.
  intros Hlen. unfold Routes.analyze_batch.
  by rewrite (proj2 (Nat.ltb_lt _ _) Hlen).
Qed.

(** Items from which a request can be built each leave one entry, a
    response or an error, and the loop goes on. *)
Lemma batch_loop_well_formed pre :
  forall rest i worlds results app,
    Forall well_formed pre ->
    exists entries app',
      length entries = length pre /\
      batch_loop (pre ++ rest) i worlds results app =
      batch_loop rest (i + length pre) worlds (results ++ entries) app'.
Proof.
  induction pre as [| item pre IH]; intros rest i worlds results app Hwf.
  - exists [], app. split; [reflexivity |].
    cbn. by rewrite Nat.add_0_r, app_nil_r.
  - apply Forall_cons in Hwf as [[request Hreq] Hwf].
    rewrite <- app_comm_cons. cbn [Routes.batch_loop]. rewrite Hreq.
    destruct (analyze_issue request (worlds i) app) as [[e | response] app1] eqn:Ha.
    + pose proof (analyze_issue_raises_HTTPException _ _ _ _ _ Ha) as He.
      destruct e; try discriminate He.
      destruct (IH rest (S i) worlds (results ++ [EntryError detail]) app1 Hwf)
        as (entries & app' & Hlen & ->).
      exists (EntryError detail :: entries), app'.
      split; [cbn; lia |].
      rewrite <- app_assoc. cbn. f_equal. lia.
    + destruct (IH rest (S i) worlds (results ++ [EntryResponse response]) app1 Hwf)
        as (entries & app' & Hlen & ->).
      exists (EntryResponse response :: entries), app'.
      split; [cbn; lia |].
      rewrite <- app_assoc. cbn. f_equal. lia.
Qed.

(** A batch of at most five such items is answered with one entry per
    item. *)
Lemma analyze_batch_well_formed items worlds app :
  (length items <= 5)%nat ->
  Forall well_formed items ->
  exists entries app',
    length entries = length items /\
    analyze_batch items worlds app =
      (ret {| analyses := entries; total := length items |}, app').
Proof.
  intros Hlen Hwf. unfold Routes.analyze_batch.
  rewrite (proj2 (Nat.ltb_ge _ _) Hlen).
  destruct (batch_loop_well_formed items [] O worlds [] app Hwf)
    as (entries & app' & Hl & Hloop).
  rewrite app_nil_r in Hloop. rewrite Hloop. cbn.
  by exists entries, app'.
Qed.

(** C6, on the code.  An item without its [issue_number] ends the batch
    with a [KeyError], wherever it stands: the entries of the items
    before it are lost and the items after it are not served. *)
Theorem C6_malformed_item_aborts_batch pre url rest worlds app :
  (length (pre ++ PyDict [("github_url", PyStr url)] :: rest) <= 5)%nat ->
  Forall well_formed pre ->
  exists app',
    analyze_batch (pre ++ PyDict [("github_url", PyStr url)] :: rest) worlds app
    = (raise (KeyError "issue_number"), app').
Proof.
  intros Hlen Hwf. unfold Routes.analyze_batch.
  rewrite (proj2 (Nat.ltb_ge _ _) Hlen).
  destruct (batch_loop_well_formed pre
              (PyDict [("github_url", PyStr url)] :: rest) O worlds [] app Hwf)
    as (entries & app' & _ & ->).
  exists app'. reflexivity.
Qed.

End RouteFacts.

Lemma C4_missing_issue_is_500_witness :
  fst (Demo.analyze_route Demo.request_42 Demo.world_no_issue Demo.app0)
  = raise (HTTPException 500 "Internal server error").
Proof.
  destruct (C4_missing_issue_is_500 None false Demo.IssueAnalysis_parse
              Demo.request_42 Demo.world_no_issue Demo.app0 "acme" "widgets")
    as [_ H]; [reflexivity | right; exact I | reflexivity | reflexivity |].
  exact H.
Defined.

Lemma C6_malformed_item_aborts_batch_witness :
  fst (Demo.analyze_batch [Demo.item_ok; Demo.item_no_number; Demo.item_ok]
         Demo.app0)
  = raise (KeyError "issue_number").
Proof.
  destruct (C6_malformed_item_aborts_batch None false Demo.IssueAnalysis_parse
              Demo.str_field Demo.int_field [Demo.item_ok]
              "https://github.com/acme/widgets" [Demo.item_ok]
              (fun _ => Demo.world_ok) Demo.app0) as (app' & H).
  - cbn. lia.
  - constructor; [| constructor]. eexists. reflexivity.
  - exact (f_equal fst H).
Defined.

(** ** More on the cache: soundness, overwriting, isolation, removal *)

Section CacheLaws.

Context {V : Type}.
Implicit Types (self : CacheManager.t V) (key : string) (v : V).

Import CacheManager.

(** X19.  A value that [get] returns is the primary's answer or the value of
    an entry of the mapping that has not expired; in the second case the
    manager is unchanged.  An expired entry is never returned. *)
Theorem get_sound self key now r v self' :
  get self key now r = (Some v, self') ->
  self' = self /\
  ((redis_client self = true /\ r = ReadValue v) \/
   exists e, in_memory_cache self !! key = Some e /\ value e = v /\
             now < expires_at e).
Proof.
  unfold get. destruct (redis_client self).
  - destruct r as [| | v0].
    + destruct (in_memory_cache self !! key) as [e |]; [| discriminate].
      destruct (now <? expires_at e) eqn:Hlt; [| discriminate].
      intros [= <- <-]. split; [done |]. right. exists e.
      apply Z.ltb_lt in Hlt. done.
    + destruct (in_memory_cache self !! key) as [e |]; [| discriminate].
      destruct (now <? expires_at e) eqn:Hlt; [| discriminate].
      intros [= <- <-]. split; [done |]. right. exists e.
      apply Z.ltb_lt in Hlt. done.
    + intros [= <- <-]. split; [done |]. by left.
  - destruct (in_memory_cache self !! key) as [e |]; [| discriminate].
    destruct (now <? expires_at e) eqn:Hlt; [| discriminate].
    intros [= <- <-]. split; [done |]. right. exists e.
    apply Z.ltb_lt in Hlt. done.
Qed.

(** [get] never changes the entry of another key, never adds an entry,
    and leaves the configuration alone. *)
Theorem get_frame self key now r o self' :
  get self key now r = (o, self') ->
  redis_client self' = redis_client self /\ ttl self' = ttl self /\
  (forall key', key' <> key ->
     in_memory_cache self' !! key' = in_memory_cache self !! key') /\
  (forall e, in_memory_cache self' !! key = Some e ->
     in_memory_cache self !! key = Some e).
Proof.
  unfold get.
  destruct (if redis_client self then _ else _) as [v0 |].
  - by intros [= _ <-].
  - destruct (in_memory_cache self !! key) as [e0 |] eqn:He.
    + destruct (now <? expires_at e0).
      * intros [= _ <-]. repeat split; try done. intros e. by rewrite He.
      * intros [= _ <-]. cbn. repeat split; try done.
        -- intros key' Hne. by rewrite lookup_delete_ne.
        -- intros e. by rewrite lookup_delete_eq.
    + intros [= _ <-]. repeat split; try done. intros e. by rewrite He.
Qed.

(** X20.  In the in-process tier the last write wins: after two writes of the
    same key, a read before the second expiry returns the second value,
    whatever the first write was. *)
Theorem set_overwrites self key v1 v2 ttl1 ttl2 now1 now2 w1 w2 e1 e2 :
  redis_client self = false \/ (w1 = WriteRaises /\ w2 = WriteRaises) ->
  expiry now1 (ttl_or ttl1 (ttl self)) = inr e1 ->
  expiry now2 (ttl_or ttl2 (ttl self)) = inr e2 ->
  exists self1 self2,
    set self key v1 ttl1 now1 w1 = (ret true, self1) /\
    set self1 key v2 ttl2 now2 w2 = (ret true, self2) /\
    in_memory_cache self2 !! key = Some {| value := v2; expires_at := e2 |} /\
    forall now r,
      redis_client self = false \/ (forall v', r <> ReadValue v') ->
      now < e2 -> get self2 key now r = (Some v2, self2).
Proof.
  intros Htier He1 He2.
  eexists. eexists. split; [| split; [| split]].
  - apply set_in_process; [| exact He1]. tauto.
  - apply set_in_process; [| exact He2]. cbn. tauto.
  - cbn. by rewrite insert_insert_eq, lookup_insert_eq.
  - intros now r Hr Hnow. rewrite get_in_process by (cbn; tauto).
    cbn. rewrite insert_insert_eq, lookup_insert_eq. cbn.
    apply Z.ltb_lt in Hnow. by rewrite Hnow.
Qed.

(** X21.  Keys are isolated: a write of one key does not change what a read
    of another key returns. *)
Theorem set_get_other_key self key key' v ttl_arg now w b self' now' r :
  set self key v ttl_arg now w = (b, self') ->
  key' <> key ->
  fst (get self' key' now' r) = fst (get self key' now' r).
Proof.
  intros Hset Hne.
  pose proof (set_other_key _ _ key' _ _ _ _ _ _ Hset (not_eq_sym Hne)) as Hm.
  destruct (set_keeps_config _ _ _ _ _ _ _ _ Hset) as [Hc _].
  unfold get. rewrite Hc, Hm.
  destruct (if redis_client self then _ else _); [reflexivity |].
  destruct (in_memory_cache self !! key') as [e |]; [| reflexivity].
  by destruct (now' <? expires_at e).
Qed.

(** X22.  [delete] in the in-process tier: it answers whether the key was
    there, the key is gone afterwards, the other keys stay, and a read
    that the primary does not answer finds nothing. *)
Theorem delete_in_process self key w :
  redis_client self = false \/ w = WriteRaises ->
  exists self',
    delete self key w = (bool_decide (is_Some (in_memory_cache self !! key)), self') /\
    in_memory_cache self' !! key = None /\
    (forall key', key' <> key ->
       in_memory_cache self' !! key' = in_memory_cache self !! key') /\
    forall now r,
      redis_client self = false \/ (forall v', r <> ReadValue v') ->
      get self' key now r = (None, self').
Proof.
  intros Htier.
  assert (delete self key w =
          match in_memory_cache self !! key with
          | Some _ => (true, with_memory self (base.delete key (in_memory_cache self)))
          | None => (false, self)
          end) as Hd.
  { unfold delete. destruct Htier as [-> | ->]; [reflexivity |].
    by destruct (redis_client self). }
  rewrite Hd. destruct (in_memory_cache self !! key) as [e |] eqn:He.
  - eexists. split; [reflexivity |]. cbn.
    split; [apply lookup_delete_eq |].
    split; [intros key' Hne; by rewrite lookup_delete_ne |].
    intros now r Hr. rewrite get_in_process by (cbn; tauto).
    cbn. by rewrite lookup_delete_eq.
  - exists self. split; [reflexivity |]. split; [exact He |].
    split; [done |].
    intros now r Hr. rewrite get_in_process by tauto. by rewrite He.
Qed.

(** X23.  [delete] with a client whose request succeeds answers [True] and
    leaves the in-process mapping alone: an entry written there while
    Redis was failing survives the deletion and is served by a later
    read that Redis does not answer. *)
Theorem delete_keeps_fallback_entry self key v ttl_arg now e :
  redis_client self = true ->
  expiry now (ttl_or ttl_arg (ttl self)) = inr e ->
  exists self1,
    set self key v ttl_arg now WriteRaises = (ret true, self1) /\
    delete self1 key WriteOk = (true, self1) /\
    forall now' r, (forall v', r <> ReadValue v') -> now' < e ->
      get self1 key now' r = (Some v, self1).
Proof.
  intros Hc He. eexists. split; [apply set_in_process; [by right | exact He] |].
  split.
  - unfold delete. cbn. by rewrite Hc.
  - intros now' r Hr Hnow. rewrite get_in_process by (right; exact Hr).
    cbn. rewrite lookup_insert_eq. cbn.
    apply Z.ltb_lt in Hnow. by rewrite Hnow.
Qed.

(** X24.  [clear_all] in the in-process tier empties the mapping: every later
    read that the primary does not answer finds nothing, and leaves the
    manager as it is. *)
Theorem clear_all_in_process self w :
  redis_client self = false \/ w = WriteRaises ->
  exists self',
    clear_all self w = (true, self') /\
    in_memory_cache self' = ∅ /\
    forall key now r,
      redis_client self = false \/ (forall v', r <> ReadValue v') ->
      get self' key now r = (None, self').
Proof.
  intros Htier. exists (with_memory self ∅). split; [| split].
  - unfold clear_all. destruct Htier as [-> | ->]; [reflexivity |].
    by destruct (redis_client self).
  - reflexivity.
  - intros key now r Hr. rewrite get_in_process by (cbn; tauto).
    cbn. by rewrite lookup_empty.
Qed.

End CacheLaws.

(** ** More on the endpoints: status codes, counters, the second call *)

Section RouteLaws.

Variable GITHUB_TOKEN : option string.
Variable DEBUG : bool.
Variable IssueAnalysis_parse : pyval -> result IssueAnalysis.
Variable str_field : pyval -> option string.
Variable int_field : pyval -> option Z.

Import Routes Conditions.

Local Abbreviation analyze_issue_body :=
  (Routes.analyze_issue_body GITHUB_TOKEN IssueAnalysis_parse).
Local Abbreviation analyze_issue :=
  (Routes.analyze_issue GITHUB_TOKEN DEBUG IssueAnalysis_parse).
Local Abbreviation batch_loop :=
  (Routes.batch_loop GITHUB_TOKEN DEBUG IssueAnalysis_parse str_field int_field).
Local Abbreviation analyze_batch :=
  (Routes.analyze_batch GITHUB_TOKEN DEBUG IssueAnalysis_parse str_field
     int_field).
Local Abbreviation well_formed := (Routes.well_formed str_field int_field).

Hypothesis parse_plain : forall d, not_http (IssueAnalysis_parse d).

Lemma fetch_issue_not_http owner repo n exchange :
  not_http exchange ->
  not_http (GitHubService.fetch_issue GITHUB_TOKEN owner repo n exchange).
Proof.
  unfold GitHubService.fetch_issue. destruct exchange as [e | i]; [| done].
  destruct e; cbn; try done.
  destruct (status_code =? 404); [done |].
  by destruct (status_code =? 403).
Qed.

(** What one request does to the counters, and with which status it
    fails. *)
Lemma analyze_issue_effect request w app r app' :
  plain_world w ->
  analyze_issue request w app = (r, app') ->
  match r with
  | inl e =>
      errors (stats app') = errors (stats app) + 1 /\
      total_analyses (stats app') = total_analyses (stats app) /\
      exists code detail,
        e = HTTPException code detail /\ (code = 400 \/ code = 404 \/ code = 500)
  | inr response =>
      errors (stats app') = errors (stats app) /\
      length (response_times (stats app'))
        = S (length (response_times (stats app))) /\
      if cached (metadata response)
      then cache_hits (stats app') = cache_hits (stats app) + 1 /\
           cache_misses (stats app') = cache_misses (stats app) /\
           total_analyses (stats app') = total_analyses (stats app)
      else cache_hits (stats app') = cache_hits (stats app) /\
           total_analyses (stats app') = total_analyses (stats app) + 1 /\
           cache_misses (stats app')
             = cache_misses (stats app) + (if use_cache request then 1 else 0)
  end.
Proof.
  intros [Hx Hl]. unfold Routes.analyze_issue, Routes.analyze_issue_body.
  destruct (GitHubService.parse_github_url _) as [e0 | [owner repo]].
  { intros [= <- <-]. cbn. split; [done |]. split; [done |]. eauto 6. }
  pose proof (fetch_issue_not_http owner repo (issue_number request) _ Hx) as Hf.
  destruct (use_cache request).
  - destruct (CacheManager.get _ _ _ _) as [[d |] c].
    + destruct (py_bool d).
      * pose proof (parse_plain d) as Hp.
        destruct (IssueAnalysis_parse d) as [e | a]; cbn in *.
        -- rewrite Hp. intros [= <- <-]. cbn.
           split; [done |]. split; [done |]. eauto 6.
        -- intros [= <- <-]. cbn. rewrite length_app. cbn. repeat split; lia.
      * destruct (negb _).
        { intros [= <- <-]. cbn. split; [done |]. split; [done |]. eauto 6. }
        destruct (GitHubService.fetch_issue _ _ _ _ _) as [e | gi]; cbn in *.
        { rewrite Hf. intros [= <- <-]. cbn.
          split; [done |]. split; [done |]. eauto 6. }
        destruct (llm_reply w) as [e | a]; cbn in *.
        { rewrite Hl. intros [= <- <-]. cbn.
          split; [done |]. split; [done |]. eauto 6. }
        unfold CacheManager.set.
        destruct (if CacheManager.redis_client _ then _ else _).
        { intros [= <- <-]. cbn. rewrite length_app. cbn. repeat split; lia. }
        unfold CacheManager.expiry, Datetime.timedelta, Datetime.add.
        destruct (_ && _); cbn;
          [destruct (_ && _); cbn |];
          intros [= <- <-]; cbn; rewrite ?length_app; cbn;
          try (repeat split; lia);
          (split; [done |]; split; [done |]; eauto 6).
    + destruct (negb _).
      { intros [= <- <-]. cbn. split; [done |]. split; [done |]. eauto 6. }
      destruct (GitHubService.fetch_issue _ _ _ _ _) as [e | gi]; cbn in *.
      { rewrite Hf. intros [= <- <-]. cbn.
        split; [done |]. split; [done |]. eauto 6. }
      destruct (llm_reply w) as [e | a]; cbn in *.
      { rewrite Hl. intros [= <- <-]. cbn.
        split; [done |]. split; [done |]. eauto 6. }
      unfold CacheManager.set.
      destruct (if CacheManager.redis_client _ then _ else _).
      { intros [= <- <-]. cbn. rewrite length_app. cbn. repeat split; lia. }
      unfold CacheManager.expiry, Datetime.timedelta, Datetime.add.
      destruct (_ && _); cbn;
        [destruct (_ && _); cbn |];
        intros [= <- <-]; cbn; rewrite ?length_app; cbn;
        try (repeat split; lia);
        (split; [done |]; split; [done |]; eauto 6).
  - destruct (negb _).
    { intros [= <- <-]. cbn. split; [done |]. split; [done |]. eauto 6. }
    destruct (GitHubService.fetch_issue _ _ _ _ _) as [e | gi]; cbn in *.
    { rewrite Hf. intros [= <- <-]. cbn.
      split; [done |]. split; [done |]. eauto 6. }
    destruct (llm_reply w) as [e | a]; cbn in *.
    { rewrite Hl. intros [= <- <-]. cbn.
      split; [done |]. split; [done |]. eauto 6. }
    unfold CacheManager.set.
    destruct (if CacheManager.redis_client _ then _ else _).
    { intros [= <- <-]. cbn. rewrite length_app. cbn. repeat split; lia. }
    unfold CacheManager.expiry, Datetime.timedelta, Datetime.add.
    destruct (_ && _); cbn;
      [destruct (_ && _); cbn |];
      intros [= <- <-]; cbn; rewrite ?length_app; cbn;
      try (repeat split; lia);
      (split; [done |]; split; [done |]; eauto 6).
Qed.

(** X25.  Every failure of the analyze endpoint is an [HTTPException] with
    status 400, 404 or 500; no other status is ever produced. *)
Theorem analyze_issue_status_codes request w app e app' :
  plain_world w ->
  analyze_issue request w app = (inl e, app') ->
  exists code detail,
    e = HTTPException code detail /\ (code = 400 \/ code = 404 \/ code = 500).
Proof.
  intros Hw Ha. by destruct (analyze_issue_effect _ _ _ _ _ Hw Ha) as (_ & _ & H).
Qed.

(** X26.  The error counter counts the failed requests: a request that fails
    adds exactly one, a request that succeeds adds nothing. *)
Theorem analyze_issue_counts_errors request w app r app' :
  plain_world w ->
  analyze_issue request w app = (r, app') ->
  errors (stats app') =
    errors (stats app) + match r with inl _ => 1 | inr _ => 0 end.
Proof.
  intros Hw Ha. pose proof (analyze_issue_effect _ _ _ _ _ Hw Ha) as H.
  destruct r; [by destruct H as (-> & _) | destruct H as (-> & _); lia].
Qed.

(** X27.  A successful request records one response time; it counts as a
    cache hit exactly when the answer says [cached], and as an analysis
    exactly when it does not. *)
Theorem analyze_issue_counts_success request w app response app' :
  plain_world w ->
  analyze_issue request w app = (ret response, app') ->
  length (response_times (stats app'))
    = S (length (response_times (stats app))) /\
  cache_hits (stats app')
    = cache_hits (stats app) + (if cached (metadata response) then 1 else 0) /\
  total_analyses (stats app')
    = total_analyses (stats app) + (if cached (metadata response) then 0 else 1).
Proof.
  intros Hw Ha. pose proof (analyze_issue_effect _ _ _ _ _ Hw Ha) as H.
  cbn in H. destruct H as (_ & Hlen & H). split; [exact Hlen |].
  destruct (cached (metadata response)); destruct H as (-> & H1 & H2); lia.
Qed.

(** X28.  A request with [use_cache] off does not consult the cache: its
    outcome is the same whatever the in-process mapping, the counters,
    the Redis read and the time of the read are. *)
Theorem analyze_issue_without_cache request w app m st rd t :
  use_cache request = false ->
  fst (analyze_issue request w app) =
  fst (analyze_issue request
         {| redis_read := rd; redis_write := redis_write w;
            repo_probe := repo_probe w; issue_exchange := issue_exchange w;
            llm_reply := llm_reply w; read_time := t;
            write_time := write_time w; elapsed_ms := elapsed_ms w |}
         {| cache_manager := CacheManager.with_memory (cache_manager app) m;
            stats := st |}).
Proof.
  intros Hc. unfold Routes.analyze_issue, Routes.analyze_issue_body.
  rewrite Hc. cbn.
  destruct (GitHubService.parse_github_url _) as [e0 | [owner repo]];
    [reflexivity |].
  destruct (negb _); [reflexivity |].
  destruct (GitHubService.fetch_issue _ _ _ _ _) as [e | gi]; cbn;
    [by destruct (is_HTTPException e) |].
  destruct (llm_reply w) as [e | a]; cbn; [by destruct (is_HTTPException e) |].
  unfold CacheManager.set. cbn.
  destruct (if CacheManager.redis_client _ then _ else _); [reflexivity |].
  destruct (CacheManager.expiry _ _) as [e | ex]; cbn; [| reflexivity].
  by destruct (is_HTTPException e).
Qed.

(** X29.  Analysing the same issue twice with the cache on: when the first
    request misses an in-process cache and succeeds, and the second
    arrives before the entry expires, the second is answered from the
    cache with the same analysis, marked [cached], whatever GitHub and
    the model would answer then.  It needs the cached dict to read back
    as the analysis it was made from. *)
Theorem analyze_issue_twice request w1 w2 app owner repo gi a e :
  GitHubService.parse_github_url (github_url request) = inr (owner, repo) ->
  use_cache request = true ->
  CacheManager.redis_client (cache_manager app) = false ->
  CacheManager.in_memory_cache (cache_manager app)
    !! cache_key_of owner repo (issue_number request) = None ->
  GitHubService.validate_repository (repo_probe w1) = true ->
  issue_exchange w1 = inr gi ->
  llm_reply w1 = inr a ->
  CacheManager.expiry (write_time w1) (CacheManager.ttl (cache_manager app))
    = inr e ->
  read_time w2 < e ->
  IssueAnalysis_parse (IssueAnalysis_dict a) = ret a ->
  exists r1 app1 r2 app2,
    analyze_issue request w1 app = (ret r1, app1) /\
    data r1 = a /\ cached (metadata r1) = false /\
    analyze_issue request w2 app1 = (ret r2, app2) /\
    data r2 = a /\ cached (metadata r2) = true /\
    cache_manager app2 = cache_manager app1.
Proof.
  intros Hp Hu Hc Hnone Hv Hx Hl He Hlt Hrt.
  unfold Routes.analyze_issue, Routes.analyze_issue_body.
  rewrite Hp, Hu.
  rewrite (get_in_process (cache_manager app)) by (by left).
  rewrite Hnone. cbn. rewrite Hv, Hx, Hl. cbn.
  rewrite (set_in_process _ _ _ _ _ _ e) by (by (left + exact He)).
  cbn. do 4 eexists. split; [reflexivity |]. cbn.
  split; [reflexivity |]. split; [reflexivity |].
  rewrite get_in_process by (by left).
  cbn. rewrite lookup_insert_eq. cbn.
  apply Z.ltb_lt in Hlt. rewrite Hlt. cbn. rewrite Hrt. cbn.
  split; [reflexivity |]. done.
Qed.

Lemma count_errors_snoc entries en :
  count_errors (en :: entries) =
    count_errors entries
    + match en with EntryError _ => 1 | EntryResponse _ => 0 end.
Proof. unfold count_errors. destruct en; cbn [List.filter length]; lia. Qed.

Lemma batch_loop_accounting pre :
  forall rest i worlds results app,
    Forall well_formed pre ->
    (forall j, plain_world (worlds j)) ->
    exists entries app',
      length entries = length pre /\
      errors (stats app') = errors (stats app) + count_errors entries /\
      batch_loop (pre ++ rest) i worlds results app =
      batch_loop rest (i + length pre) worlds (results ++ entries) app'.
Proof.
  induction pre as [| item pre IH]; intros rest i worlds results app Hwf Hpl.
  - exists [], app. split; [reflexivity |].
    split; [unfold count_errors; cbn; lia |].
    cbn. by rewrite Nat.add_0_r, app_nil_r.
  - apply Forall_cons in Hwf as [[request Hreq] Hwf].
    rewrite <- app_comm_cons. cbn [Routes.batch_loop]. rewrite Hreq.
    destruct (analyze_issue request (worlds i) app) as [r app1] eqn:Ha.
    destruct r as [e | response].
    + destruct (analyze_issue_effect _ _ _ _ _ (Hpl i) Ha)
        as (Herr & _ & code & detail & -> & _).
      destruct (IH rest (S i) worlds (results ++ [EntryError detail]) app1 Hwf Hpl)
        as (entries & app' & Hlen & Herr' & ->).
      exists (EntryError detail :: entries), app'.
      split; [cbn; lia |]. split; [rewrite count_errors_snoc; lia |].
      rewrite <- app_assoc. cbn. f_equal. lia.
    + destruct (analyze_issue_effect _ _ _ _ _ (Hpl i) Ha) as (Herr & _).
      destruct (IH rest (S i) worlds (results ++ [EntryResponse response]) app1 Hwf Hpl)
        as (entries & app' & Hlen & Herr' & ->).
      exists (EntryResponse response :: entries), app'.
      split; [cbn; lia |]. split; [rewrite count_errors_snoc; lia |].
      rewrite <- app_assoc. cbn. f_equal. lia.
Qed.

(** X30.  A batch of at most five items from each of which a request can be
    built is answered with one entry per item, and the number of its
    error entries is the growth of the error counter. *)
Theorem analyze_batch_accounting items worlds app :
  (length items <= 5)%nat ->
  Forall well_formed items ->
  (forall j, plain_world (worlds j)) ->
  exists entries app',
    analyze_batch items worlds app =
      (ret {| analyses := entries; total := length items |}, app') /\
    length entries = length items /\
    errors (stats app') = errors (stats app) + count_errors entries.
Proof.
  intros Hlen Hwf Hpl. unfold Routes.analyze_batch.
  rewrite (proj2 (Nat.ltb_ge _ _) Hlen).
  destruct (batch_loop_accounting items [] O worlds [] app Hwf Hpl)
    as (entries & app' & Hl & Herr & Hloop).
  rewrite app_nil_r in Hloop. rewrite Hloop. cbn.
  by exists entries, app'.
Qed.

(** A batch of more than five items is refused with a 400 before any
    item is looked at: nothing is counted and the cache is untouched. *)
Theorem analyze_batch_cap items worlds app :
  (5 < length items)%nat ->
  analyze_batch items worlds app =
    (raise (HTTPException 400 "Maximum 5 issues per batch"), app).
Proof.
  intros Hlen. unfold Routes.analyze_batch.
  by rewrite (proj2 (Nat.ltb_lt _ _) Hlen).
Qed.

End RouteLaws.

(** ** More on the parsing of a reply *)

Section ParseLaws.

Variable json_loads : string -> string + pyval.
Variable str_field : pyval -> option string.

Import LLMService LabelSpec Conditions.

Local Abbreviation build_analysis := (LLMService.build_analysis str_field).
Local Abbreviation _parse_response :=
  (LLMService._parse_response json_loads str_field).

Lemma _validate_priority_score_range v n :
  _validate_priority_score v = inr n -> 1 <= n <= 5.
Proof.
  unfold _validate_priority_score.
  destruct (PyInt.int v) as [e | z].
  - destruct (_ || _); [| discriminate]. intros [= <-]. lia.
  - destruct ((1 <=? z) && (z <=? 5)) eqn:Hr; intros [= <-]; lia.
Qed.

Lemma _validate_labels_bounds v :
  (length (_validate_labels v) <= 5)%nat /\
  Forall (fun s => Py.strip s = s) (_validate_labels v).
Proof.
  destruct v as [| | | | | l |]; try (split; [cbn; lia | constructor]).
  rewrite _validate_labels_sequence. split.
  - pose proof (labels_of_sequence_length l). lia.
  - apply labels_of_sequence_trimmed.
Qed.

(** What every parsed reply satisfies. *)
Lemma _parse_response_schema text a :
  _parse_response text = inr a ->
  In (type a) valid_types /\
  1 <= score (priority_score a) <= 5 /\
  (length (suggested_labels a) <= 5)%nat /\
  Forall (fun s => Py.strip s = s) (suggested_labels a).
Proof.
  intros Hp. split; [by apply (_parse_response_type json_loads str_field text) |].
  destruct (_parse_response_inr _ _ _ _ Hp) as (data & _ & Hb).
  destruct (build_analysis_inr _ _ _ Hb) as (d & ps & _ & _ & _ & Hsc & ->).
  split; [by apply _validate_priority_score_range in Hsc |].
  apply _validate_labels_bounds.
Qed.

(** The labels of a valid analysis pass the repair unchanged. *)
Lemma _validate_labels_id labels :
  labels <> [] -> (length labels <= 5)%nat ->
  Forall (fun s => Py.strip s = s) labels ->
  _validate_labels (PyList (PyStr <$> labels)) = labels.
Proof.
  intros Hne Hlen Htrim. rewrite _validate_labels_sequence.
  unfold labels_of_sequence.
  assert (map (fun x => Py.strip (label_text x))
            (List.filter isinstance_str_int (PyStr <$> labels)) = labels) as ->.
  { clear Hne Hlen. induction Htrim as [| s l Hs _ IH]; [reflexivity |].
    rewrite fmap_cons. cbn [List.filter isinstance_str_int map label_text].
    by rewrite Hs, IH. }
  rewrite take_ge by lia. by destruct labels.
Qed.

(** X8.  Round trip: the dict of a valid analysis builds that analysis
    again, so a valid analysis survives the cache. *)
Theorem build_analysis_of_dict a :
  (forall s, str_field (PyStr s) = Some s) ->
  valid_analysis a ->
  build_analysis (Routes.IssueAnalysis_dict a) = ret a.
Proof.
  intros Hstr (Hty & Hsc & Hne & Hlen & Htrim).
  destruct a as [summ ty [sc just] labels impact]. cbn in *.
  assert ((1 <=? sc) && (sc <=? 5) = true) as Hr by lia.
  unfold LLMService.build_analysis, Routes.IssueAnalysis_dict.
  cbn -[_validate_labels _validate_type PriorityScore_init IssueAnalysis_init].
  rewrite Hr.
  cbn -[_validate_labels _validate_type PriorityScore_init IssueAnalysis_init].
  unfold PriorityScore_init. rewrite Hstr, Hr.
  cbn -[_validate_labels _validate_type IssueAnalysis_init].
  pose proof (_validate_labels_id labels Hne Hlen Htrim) as Hlab.
  unfold _validate_labels in Hlab. rewrite Hlab, Hty.
  unfold IssueAnalysis_init. rewrite !Hstr. cbn [negb].
  unfold in_valid_types, valid_types. cbn [existsb]. by rewrite Hty.
Qed.

(** X9.  A reply that is an object without any of the five fields is not an
    error: it gives the analysis made of the defaults. *)
Theorem _parse_response_defaults text d :
  str_field (PyStr EmptyString) = Some EmptyString ->
  json_loads (extract_json text) = inr (PyDict d) ->
  dict_lookup d "summary" = None ->
  dict_lookup d "type" = None ->
  dict_lookup d "priority_score" = None ->
  dict_lookup d "suggested_labels" = None ->
  dict_lookup d "potential_impact" = None ->
  _parse_response text =
    ret {| summary := EmptyString; type := "other";
           priority_score := {| score := 3; justification := EmptyString |};
           suggested_labels := ["general"];
           potential_impact := EmptyString |}.
Proof.
  intros Hstr Hj H1 H2 H3 H4 H5.
  unfold LLMService._parse_response. rewrite Hj. cbn.
  unfold LLMService.build_analysis. cbn. unfold dict_get.
  rewrite H1, H2, H3, H4, H5. cbn.
  unfold PriorityScore_init. rewrite Hstr. cbn.
  unfold IssueAnalysis_init. by rewrite Hstr.
Qed.

(** X10.  A reply that decodes to anything but an object (a list, a number, a
    string, [null]) is not repaired: [_parse_response] raises
    [AttributeError]. *)
Theorem _parse_response_not_object text data :
  json_loads (extract_json text) = inr data ->
  (forall d, data <> PyDict d) ->
  _parse_response text = raise AttributeError.
Proof.
  intros Hj Hd. apply _parse_response_raises with (data := data); try done.
  destruct data; try reflexivity. by destruct (Hd d).
Qed.

(** Text that does not decode is reported as a [ValueError] with the
    message of the decoder, never as the decoder's own exception. *)
Theorem _parse_response_undecodable text msg :
  json_loads (extract_json text) = inl msg ->
  _parse_response text = raise (ValueError ("Invalid JSON in response: " +:+ msg)).
Proof.
  intros Hj. unfold LLMService._parse_response. by rewrite Hj.
Qed.

End ParseLaws.

(** ** More on the retry loop *)

Section RetryLaws.

Variable json_loads : string -> string + pyval.
Variable str_field : pyval -> option string.
Variable create_analysis_prompt :
  string -> option string -> list string -> option string -> result string.
Variable generate_content : nat -> string -> result string.

Import LLMService.

Local Abbreviation attempt :=
  (LLMService.attempt json_loads str_field generate_content).
Local Abbreviation analyze_issue :=
  (LLMService.analyze_issue json_loads str_field create_analysis_prompt
     generate_content).

Variables (issue_title : string) (issue_body : option string)
  (comments : list string) (repo_context : option string).

Local Abbreviation run :=
  (analyze_issue issue_title issue_body comments repo_context).

(** X11.  Whatever the model answers or raises, [analyze_issue] ends.  When
    the prompt is built, it ends after at least one and at most
    [max_retries - retry_count + 1] calls of the model, and every call
    sends that same prompt.  When the builder of the prompt raises (a
    body that is [None]), the model is never called, and the exception
    of the builder is the outcome once the retries are used up. *)
Theorem analyze_issue_bounded retry_count max_retries sent :
  match
    create_analysis_prompt issue_title issue_body comments repo_context
  with
  | inr prompt =>
      exists j,
        (1 <= j <= S (Z.to_nat (max_retries - retry_count)))%nat /\
        snd (analyze_issue issue_title issue_body comments repo_context
               retry_count max_retries sent)
        = sent ++ repeat prompt j
  | inl e =>
      analyze_issue issue_title issue_body comments repo_context
        retry_count max_retries sent
      = (raise (if is_JSONDecodeError e then UnboundLocalError else e), sent)
  end.
Proof.
  destruct (create_analysis_prompt issue_title issue_body comments repo_context)
    as [e | prompt] eqn:Hb.
  - exact (analyze_issue_unbuilt json_loads str_field create_analysis_prompt
             generate_content issue_title issue_body comments repo_context
             e max_retries _ Hb retry_count sent eq_refl).
  - exact (analyze_issue_sent json_loads str_field create_analysis_prompt
             generate_content issue_title issue_body comments repo_context
             prompt Hb max_retries _ retry_count sent eq_refl).
Qed.

(** From here on the prompt is built: the issue has a body. *)
Section Built.

Variable prompt : string.
Hypothesis prompt_built :
  create_analysis_prompt issue_title issue_body comments repo_context
  = inr prompt.

Lemma analyze_issue_recovers_from m :
  forall retry_count max_retries sent a,
    retry_count + Z.of_nat m <= max_retries ->
    (forall i, (i < m)%nat ->
       exists e, attempt (length sent + i) prompt = inl e /\
                 is_JSONDecodeError e = false) ->
    attempt (length sent + m) prompt = inr a ->
    run retry_count max_retries sent = (ret a, sent ++ repeat prompt (S m)).
Proof.
  induction m as [| m IH]; intros retry_count max_retries sent a Hle Hfail Hok;
    rewrite (analyze_issue_step _ _ _ _ _ _ _ _ prompt prompt_built).
  - rewrite Nat.add_0_r in Hok. by rewrite Hok.
  - destruct (Hfail O) as (e & He & Hj); [lia |].
    rewrite Nat.add_0_r in He. rewrite He, Hj.
    destruct (Z_lt_dec retry_count max_retries); [| lia].
    rewrite (IH (retry_count + 1) max_retries (sent ++ [prompt]) a).
    + by rewrite <- app_assoc.
    + lia.
    + intros i Hi. destruct (Hfail (S i)) as (e' & He' & Hj'); [lia |].
      exists e'. split; [| exact Hj'].
      rewrite length_app. cbn.
      by replace (length sent + 1 + i)%nat with (length sent + S i)%nat by lia.
    + rewrite length_app. cbn.
      by replace (length sent + 1 + m)%nat with (length sent + S m)%nat by lia.
Qed.

(** X12.  The retries absorb failures: when the first [k] attempts fail (an
    empty reply, text that does not parse, an exception of the model
    other than a [JSONDecodeError]) and the next one parses, with [k]
    within the budget, [analyze_issue] returns that analysis after
    [k + 1] calls. *)
Theorem analyze_issue_recovers k max_retries a :
  Z.of_nat k <= max_retries ->
  (forall i, (i < k)%nat ->
     exists e, attempt i prompt = inl e /\ is_JSONDecodeError e = false) ->
  attempt k prompt = inr a ->
  run 0 max_retries [] = (ret a, repeat prompt (S k)).
Proof.
  intros Hle Hfail Hok.
  by apply (analyze_issue_recovers_from k 0 max_retries []).
Qed.

(** X13.  A [JSONDecodeError] raised by the model call itself is not retried:
    the handler meant for it reads [response], which was never bound,
    and [analyze_issue] ends with an [UnboundLocalError] at once. *)
Theorem analyze_issue_client_decode_error msg retry_count max_retries sent :
  generate_content (length sent) prompt = inl (JSONDecodeError msg) ->
  run retry_count max_retries sent = (raise UnboundLocalError, sent ++ [prompt]).
Proof.
  intros Hg. rewrite (analyze_issue_step _ _ _ _ _ _ _ _ prompt prompt_built).
  unfold LLMService.attempt, LLMService.reply. by rewrite Hg.
Qed.

End Built.

(** X14.  Every analysis that reaches the caller satisfies the schema: a type
    of the enumeration, a score from 1 to 5, at most five labels, none
    with a blank at either end. *)
Theorem analyze_issue_schema retry_count max_retries sent a sent' :
  run retry_count max_retries sent = (inr a, sent') ->
  In (type a) valid_types /\
  1 <= score (priority_score a) <= 5 /\
  (length (suggested_labels a) <= 5)%nat /\
  Forall (fun s => Py.strip s = s) (suggested_labels a).
Proof.
  intros Hrun.
  destruct (analyze_issue_inr json_loads str_field create_analysis_prompt
              generate_content issue_title issue_body comments repo_context
              max_retries _ retry_count sent a sent' eq_refl Hrun)
    as (text & Hp).
  by apply (_parse_response_schema json_loads str_field text).
Qed.

End RetryLaws.

(** ** Strings: blanks, pieces, removal *)

Section StringLaws.

Import Conditions.

Lemma append_cons c (s t : string) : String c s +:+ t = String c (s +:+ t).
Proof. reflexivity. Qed.

Lemma append_nil_l (t : string) : EmptyString +:+ t = t.
Proof. reflexivity. Qed.

Lemma append_nil_r (s : string) : s +:+ EmptyString = s.
Proof.
  induction s as [| c s IH]; [reflexivity |]. by rewrite append_cons, IH.
Qed.

Lemma append_assoc (a b c : string) : (a +:+ b) +:+ c = a +:+ (b +:+ c).
Proof.
  induction a as [| x a IH]; [reflexivity |]. by rewrite !append_cons, IH.
Qed.

Lemma length_append (a b : string) :
  String.length (a +:+ b) = (String.length a + String.length b)%nat.
Proof.
  induction a as [| x a IH]; [reflexivity |].
  rewrite append_cons. cbn [String.length]. by rewrite IH.
Qed.

Lemma blank_cons c s :
  blank (String c s) <-> Py.isspace c = true /\ blank s.
Proof.
  unfold blank. cbn. destruct (Py.isspace c); [tauto |].
  split; [discriminate | intros [[=] _]].
Qed.

Lemma lstrip_blank_app ws s :
  blank ws -> Py.lstrip Py.isspace (ws +:+ s) = Py.lstrip Py.isspace s.
Proof.
  induction ws as [| c ws IH]; [done |].
  intros [Hc Hws]%blank_cons. rewrite append_cons. cbn [Py.lstrip].
  rewrite Hc. by apply IH.
Qed.

Lemma rstrip_blank ws : blank ws -> Py.rstrip Py.isspace ws = EmptyString.
Proof.
  induction ws as [| c ws IH]; [done |].
  intros [Hc Hws]%blank_cons. rewrite rstrip_cons, IH by done. by rewrite Hc.
Qed.

Lemma rstrip_empty_blank s : Py.rstrip Py.isspace s = EmptyString -> blank s.
Proof.
  induction s as [| c s IH]; [done |].
  rewrite rstrip_cons. intros H. apply blank_cons.
  destruct (Py.rstrip Py.isspace s); [| discriminate].
  destruct (Py.isspace c); [| discriminate]. split; [done | by apply IH].
Qed.

Lemma rstrip_app_blank s ws :
  blank ws ->
  Py.rstrip Py.isspace (s +:+ ws) = Py.rstrip Py.isspace s.
Proof.
  intros Hws. induction s as [| c s IH].
  - rewrite append_nil_l. by rewrite rstrip_blank.
  - by rewrite append_cons, !rstrip_cons, IH.
Qed.

Lemma lstrip_app p s t :
  Py.lstrip p (s +:+ t) =
  match Py.lstrip p s with
  | EmptyString => Py.lstrip p t
  | q => q +:+ t
  end.
Proof.
  induction s as [| c s IH].
  - rewrite append_nil_l. cbn [Py.lstrip]. by destruct (Py.lstrip p t).
  - rewrite append_cons. cbn [Py.lstrip].
    destruct (p c); [exact IH | reflexivity].
Qed.

(** Blanks around a text do not change what [strip] gives. *)
Lemma strip_blanks ws1 s ws2 :
  blank ws1 -> blank ws2 -> Py.strip (ws1 +:+ s +:+ ws2) = Py.strip s.
Proof.
  intros H1 H2. unfold Py.strip.
  rewrite lstrip_blank_app by done. rewrite lstrip_app.
  destruct (Py.lstrip Py.isspace s) as [| c q] eqn:Hq.
  - by rewrite H2.
  - by rewrite rstrip_app_blank.
Qed.

(** A text that ends in a character kept by [rstrip] is kept whole, also
    behind any prefix. *)
Lemma rstrip_app_fixed p a s :
  s <> EmptyString -> Py.rstrip p s = s -> Py.rstrip p (a +:+ s) = a +:+ s.
Proof.
  intros Hne Hs. induction a as [| c a IH]; [done |].
  rewrite append_cons, rstrip_cons, IH.
  destruct (a +:+ s) eqn:Has; [| done].
  destruct a; [by rewrite append_nil_l in Has | discriminate].
Qed.

Lemma free_of_rstrip c s :
  free_of c s -> Py.rstrip (Ascii.eqb c) s = s.
Proof.
  induction s as [| x s IH]; [done |]. intros [Hx Hs].
  rewrite rstrip_cons, IH by done.
  destruct s; [| done].
  by rewrite (proj2 (Ascii.eqb_neq c x)) by congruence.
Qed.

Lemma free_of_app c a b : free_of c (a +:+ b) <-> free_of c a /\ free_of c b.
Proof.
  induction a as [| x a IH]; [cbn; tauto |].
  rewrite append_cons. cbn [free_of]. rewrite IH. tauto.
Qed.

(** The pieces of a split. *)
Lemma split_nonempty sep s : Py.split sep s <> [].
Proof.
  destruct s as [| c s]; cbn; [done |].
  destruct (Ascii.eqb c sep); [done |]. by destruct (Py.split sep s).
Qed.

Lemma split_free sep s : free_of sep s -> Py.split sep s = [s].
Proof.
  induction s as [| c s IH]; [done |]. intros [Hc Hs]. cbn.
  rewrite (proj2 (Ascii.eqb_neq c sep)) by done. by rewrite IH.
Qed.

Lemma split_app sep a b :
  Py.split sep (a +:+ String sep b) = Py.split sep a ++ Py.split sep b.
Proof.
  induction a as [| c a IH].
  - rewrite append_nil_l. cbn. by rewrite Ascii.eqb_refl.
  - rewrite append_cons. cbn [Py.split]. rewrite IH.
    destruct (Ascii.eqb c sep); [done |].
    pose proof (split_nonempty sep a) as Hne.
    by destruct (Py.split sep a).
Qed.



Lemma contains_eq sub c s :
  Py.contains sub (String c s) =
  if String.prefix sub (String c s) then true else Py.contains sub s.
Proof. reflexivity. Qed.

Lemma contains_cons sub c s :
  Py.contains sub (String c s) = false ->
  String.prefix sub (String c s) = false /\ Py.contains sub s = false.
Proof. rewrite contains_eq. by destruct (String.prefix sub (String c s)). Qed.

(** A text in which [old] does not occur is left as it is. *)
Lemma remove_all_absent old s :
  Py.contains old s = false -> Py.remove_all old s = s.
Proof.
  unfold Py.remove_all. induction s as [| c s IH]; [done |].
  intros [Hp Hc]%contains_cons.
  change (Py.remove_from old 0 (String c s))
    with (if String.prefix old (String c s)
          then Py.remove_from old (Nat.pred (String.length old)) s
          else String c (Py.remove_from old 0 s)).
  by rewrite Hp, IH.
Qed.

Lemma contains_app_prefix sub a s :
  String.prefix sub s = true -> Py.contains sub (a +:+ s) = true.
Proof.
  intros Hp. induction a as [| c a IH].
  - rewrite append_nil_l. destruct s; cbn [Py.contains]; by rewrite Hp.
  - rewrite append_cons, contains_eq, IH.
    by destruct (String.prefix sub (String c _)).
Qed.

End StringLaws.

(** ** More on the URL resolver *)

Section ResolverLaws.

Import GitHubService Conditions.

Lemma last_two (l : list string) o r :
  Py.last2 (l ++ [o; r]) = Some o /\ Py.last1 (l ++ [o; r]) = Some r.
Proof.
  unfold Py.last2, Py.last1. split.
  - by rewrite rev_app_distr.
  - change (l ++ [o; r]) with (l ++ [o] ++ [r]).
    by rewrite app_assoc, last_snoc.
Qed.



Lemma prefix_cons a s1 b s2 :
  String.prefix (String a s1) (String b s2)
  = Ascii.eqb a b && String.prefix s1 s2.
Proof.
  change (String.prefix (String a s1) (String b s2))
    with (match ascii_dec a b with
          | left _ => String.prefix s1 s2
          | right _ => false
          end).
  destruct (ascii_dec a b) as [-> | Hne].
  - by rewrite Ascii.eqb_refl.
  - by rewrite (proj2 (Ascii.eqb_neq a b)).
Qed.

Lemma prefix_nil s : String.prefix EmptyString s = true.
Proof. by destruct s. Qed.

(** [.git] cannot be completed by what follows a text that does not
    start with it. *)
Lemma prefix_git_app s :
  s <> EmptyString ->
  String.prefix ".git" s = false ->
  String.prefix ".git" (s +:+ ".git") = false.
Proof.
  intros Hne Hp.
  destruct s as [| c1 [| c2 [| c3 [| c4 s]]]]; [done | | | |];
    rewrite ?append_cons, ?append_nil_l;
    rewrite ?prefix_cons, ?prefix_nil in Hp |- *;
    [| | | exact Hp];
    repeat match goal with
      | |- context [Ascii.eqb ?a ?b] =>
          is_var b; destruct (Ascii.eqb a b)
      end; reflexivity.
Qed.

Lemma remove_all_git_suffix repo :
  Py.contains ".git" repo = false ->
  Py.remove_all ".git" (repo +:+ ".git") = repo.
Proof.
  unfold Py.remove_all. induction repo as [| c r IH]; [reflexivity |].
  intros [Hp Hc]%contains_cons.
  pose proof (prefix_git_app (String c r) ltac:(done) Hp) as Hp'.
  rewrite append_cons in Hp' |- *.
  change (Py.remove_from ".git" 0 (String c (r +:+ ".git")))
    with (if String.prefix ".git" (String c (r +:+ ".git"))
          then Py.remove_from ".git" (Nat.pred (String.length ".git")) (r +:+ ".git")
          else String c (Py.remove_from ".git" 0 (r +:+ ".git"))).
  by rewrite Hp', IH.
Qed.

(** The shape shared by the two theorems below: a text that contains
    the marker, ends in [/owner/last] and has no blank at either end. *)
Lemma parse_github_url_shape pre owner last :
  Py.no_lead Py.isspace pre ->
  owner <> EmptyString -> free_of "/" owner ->
  last <> EmptyString -> free_of "/" last ->
  Py.rstrip Py.isspace last = last ->
  Py.remove_all ".git" last <> EmptyString ->
  parse_github_url (pre +:+ "github.com/" +:+ owner +:+ "/" +:+ last)
    = ret (owner, Py.remove_all ".git" last).
Proof.
  intros Hpre Ho Hof Hl Hlf Hlr Hrepo.
  apply parse_github_url_inr. exists last. cbv zeta.
  set (url := pre +:+ "github.com/" +:+ owner +:+ "/" +:+ last).
  assert (url = (pre +:+ "github.com/" +:+ owner +:+ "/") +:+ last) as Hurl.
  { unfold url. by rewrite !append_assoc. }
  assert (Py.rstrip_char "/" (Py.strip url) = url) as ->.
  { unfold Py.strip. rewrite (no_lead_lstrip Py.isspace url).
    - rewrite Hurl, (rstrip_app_fixed Py.isspace) by done.
      unfold Py.rstrip_char. apply rstrip_app_fixed; [done |].
      by apply free_of_rstrip.
    - unfold url. destruct pre; [reflexivity | exact Hpre]. }
  split; [by apply contains_app_prefix |].
  assert (Py.split "/" url
          = Py.split "/" (pre +:+ "github.com") ++ [owner; last]) as ->.
  { unfold url.
    change (pre +:+ "github.com/" +:+ owner +:+ "/" +:+ last)
      with (pre +:+ "github.com" +:+ String "/" (owner +:+ String "/" last)).
    rewrite <- append_assoc, !split_app.
    by rewrite (split_free "/" owner), (split_free "/" last). }
  destruct (last_two (Py.split "/" (pre +:+ "github.com")) owner last)
    as [-> ->].
  done.
Qed.

(** X1.  A URL that ends in [/owner/repo] behind the marker resolves to
    exactly that pair, whatever precedes the marker (the host is not
    looked at), when both segments are non-empty and free of slashes,
    [repo] does not contain [.git] and the text has no blank at either
    end. *)
Theorem parse_github_url_segments pre owner repo :
  Py.no_lead Py.isspace pre ->
  owner <> EmptyString -> free_of "/" owner ->
  repo <> EmptyString -> free_of "/" repo ->
  Py.rstrip Py.isspace repo = repo ->
  Py.contains ".git" repo = false ->
  parse_github_url (pre +:+ "github.com/" +:+ owner +:+ "/" +:+ repo)
    = ret (owner, repo).
Proof.
  intros Hpre Ho Hof Hr Hrf Hrr Hg.
  rewrite <- (remove_all_absent ".git" repo Hg) at 2.
  apply parse_github_url_shape; try done.
  by rewrite remove_all_absent.
Qed.

(** X2.  The clone URL of the same repository, with its [.git] suffix,
    resolves to the same pair. *)
Theorem parse_github_url_git_suffix pre owner repo :
  Py.no_lead Py.isspace pre ->
  owner <> EmptyString -> free_of "/" owner ->
  repo <> EmptyString -> free_of "/" repo ->
  Py.contains ".git" repo = false ->
  parse_github_url (pre +:+ "github.com/" +:+ owner +:+ "/" +:+ repo +:+ ".git")
    = ret (owner, repo).
Proof.
  intros Hpre Ho Hof Hr Hrf Hg.
  rewrite <- (remove_all_git_suffix repo Hg) at 2.
  apply parse_github_url_shape; try done.
  - by destruct repo.
  - apply free_of_app. split; [done |]. cbn. repeat split; done.
  - apply rstrip_app_fixed; [done | reflexivity].
  - by rewrite remove_all_git_suffix.
Qed.

(** X3.  Blanks before and after the URL are ignored. *)
Theorem parse_github_url_blanks ws1 url ws2 :
  blank ws1 -> blank ws2 ->
  parse_github_url (ws1 +:+ url +:+ ws2) = parse_github_url url.
Proof.
  intros H1 H2. unfold parse_github_url. by rewrite strip_blanks.
Qed.


End ResolverLaws.

(** ** The fenced block of a reply *)

Section FenceLaws.

Import LLMService Conditions.

Lemma after_fence_eq s :
  after_fence s =
  if String.prefix fence s then Some (Py.drop 3 s)
  else match s with
       | String _ s' => after_fence s'
       | EmptyString => None
       end.
Proof. by destruct s. Qed.

Lemma lazy_group_eq s :
  lazy_group s =
  if String.prefix fence (Py.lstrip Py.isspace s) then Some EmptyString
  else match s with
       | String c s' => String c <$> lazy_group s'
       | EmptyString => None
       end.
Proof. by destruct s. Qed.

Lemma prefix_fence_other c s :
  c <> "`"%char -> String.prefix fence (String c s) = false.
Proof.
  intros Hc. unfold fence. rewrite prefix_cons.
  by rewrite (proj2 (Ascii.eqb_neq "`" c)) by congruence.
Qed.

Lemma free_of_lstrip c p s : free_of c s -> free_of c (Py.lstrip p s).
Proof.
  induction s as [| x s IH]; [done |]. intros [Hx Hs]. cbn [Py.lstrip].
  destruct (p x); [by apply IH | by split].
Qed.

Lemma lstrip_idem p s : Py.lstrip p (Py.lstrip p s) = Py.lstrip p s.
Proof. apply no_lead_lstrip, lstrip_no_lead. Qed.

(** The first fence is found behind a text without backticks. *)
Lemma after_fence_free pre r :
  free_of "`" pre -> after_fence (pre +:+ fence +:+ r) = Some r.
Proof.
  induction pre as [| c pre IH].
  - intros _. rewrite append_nil_l, after_fence_eq. unfold fence.
    rewrite !append_cons, append_nil_l, !prefix_cons, prefix_nil.
    by rewrite Ascii.eqb_refl.
  - intros [Hc Hpre]. rewrite append_cons, after_fence_eq.
    rewrite prefix_fence_other by done. by apply IH.
Qed.

Lemma after_fence_none s : free_of "`" s -> after_fence s = None.
Proof.
  induction s as [| c s IH]; [done |]. intros [Hc Hs].
  rewrite after_fence_eq, prefix_fence_other by done. by apply IH.
Qed.

(** The lazy group stops where only blanks separate it from a fence. *)
Lemma lazy_group_scan q t :
  free_of "`" q ->
  String.prefix fence (Py.lstrip Py.isspace t) = true ->
  lazy_group (q +:+ t) = Some (Py.rstrip Py.isspace q).
Proof.
  intros Hq Ht. induction q as [| c q IH].
  - rewrite append_nil_l, lazy_group_eq. by rewrite Ht.
  - destruct Hq as [Hc Hq]. specialize (IH Hq).
    rewrite append_cons, lazy_group_eq, IH, rstrip_cons.
    cbn [Py.lstrip]. destruct (Py.isspace c) eqn:Hsp.
    + rewrite lstrip_app.
      destruct (Py.lstrip Py.isspace q) as [| x r] eqn:Hl.
      * rewrite Ht. by rewrite (rstrip_blank q).
      * pose proof (free_of_lstrip "`" Py.isspace q Hq) as Hfree.
        rewrite Hl in Hfree. destruct Hfree as [Hx _].
        rewrite append_cons, prefix_fence_other by done.
        destruct (Py.rstrip Py.isspace q) eqn:Hr; [| reflexivity].
        apply rstrip_empty_blank in Hr. unfold blank in Hr. congruence.
    + rewrite prefix_fence_other by done.
      by destruct (Py.rstrip Py.isspace q).
Qed.

(** X5.  A payload in a fenced block tagged [json], without backticks before
    or inside it, is extracted without the blanks around it, whatever
    follows the closing fence. *)
Theorem extract_json_fenced pre ws1 p ws2 post :
  free_of "`" pre -> blank ws1 -> free_of "`" p -> blank ws2 ->
  extract_json
    (pre +:+ "```json" +:+ ws1 +:+ p +:+ ws2 +:+ "```" +:+ post)
  = Py.strip p.
Proof.
  intros Hpre H1 Hp H2. unfold extract_json, re_search_fence.
  change (pre +:+ "```json" +:+ ws1 +:+ p +:+ ws2 +:+ "```" +:+ post)
    with (pre +:+ fence +:+ "json" +:+ ws1 +:+ p +:+ ws2 +:+ fence +:+ post).
  rewrite after_fence_free by done.
  assert (String.prefix "json"
            ("json" +:+ ws1 +:+ p +:+ ws2 +:+ fence +:+ post) = true) as ->.
  { rewrite !append_cons, append_nil_l, !prefix_cons, prefix_nil.
    by rewrite !Ascii.eqb_refl. }
  change (Py.drop 4 ("json" +:+ ws1 +:+ p +:+ ws2 +:+ fence +:+ post))
    with (ws1 +:+ p +:+ ws2 +:+ fence +:+ post).
  rewrite lstrip_blank_app by done.
  assert (String.prefix fence
            (Py.lstrip Py.isspace (ws2 +:+ fence +:+ post)) = true) as Ht.
  { rewrite lstrip_blank_app by done. unfold fence.
    rewrite !append_cons, append_nil_l. cbn [Py.lstrip].
    replace (Py.isspace "`") with false by reflexivity.
    rewrite !prefix_cons, prefix_nil. by rewrite Ascii.eqb_refl. }
  rewrite lstrip_app. unfold Py.strip.
  destruct (Py.lstrip Py.isspace p) as [| x r] eqn:Hl.
  - rewrite lazy_group_eq, lstrip_idem, Ht. reflexivity.
  - rewrite lazy_group_scan; [reflexivity | | exact Ht].
    rewrite <- Hl. by apply free_of_lstrip.
Qed.

(** X6.  A reply without any backtick is taken whole. *)
Theorem extract_json_plain text :
  free_of "`" text -> extract_json text = text.
Proof.
  intros Hfree. unfold extract_json, re_search_fence.
  by rewrite after_fence_none.
Qed.

End FenceLaws.

(** ** The prompt *)

Section PromptLaws.

Variables SYSTEM_PROMPT few_shot_section : string.

Import Prompts.

Local Abbreviation create_analysis_prompt :=
  (Prompts.create_analysis_prompt SYSTEM_PROMPT few_shot_section).

Lemma str_take_all n s : (String.length s <= n)%nat -> str_take n s = s.
Proof.
  revert n. induction s as [| c s IH]; intros n Hn; [by destruct n |].
  destruct n as [| n]; [cbn in Hn; lia |].
  cbn [str_take]. rewrite IH; [done |]. cbn in Hn. lia.
Qed.

Lemma length_str_take n s :
  String.length (str_take n s) = Nat.min n (String.length s).
Proof.
  revert s. induction n as [| n IH]; intros s; [done |].
  destruct s as [| c s]; [done |]. cbn [str_take String.length].
  by rewrite IH.
Qed.

(** The guarded slice is the slice. *)
Lemma truncate_take n s : truncate n s = str_take n s.
Proof.
  unfold truncate. destruct (n <? String.length s)%nat eqn:Hn; [done |].
  apply Nat.ltb_ge in Hn. by rewrite str_take_all.
Qed.

Lemma length_truncate n s : (String.length (truncate n s) <= n)%nat.
Proof. rewrite truncate_take, length_str_take. lia. Qed.

Lemma str_take_twice n s : str_take n (str_take n s) = str_take n s.
Proof. apply str_take_all. rewrite length_str_take. lia. Qed.

(** X15.  What lies beyond the limits never reaches the model: the prompt is
    decided by the first 8000 characters of the body and by the first
    1000 characters of each of the first 20 comments. *)
Theorem create_analysis_prompt_limits title body1 body2 comments1 comments2 repo :
  str_take 8000 body1 = str_take 8000 body2 ->
  map (str_take 1000) (take 20 comments1)
    = map (str_take 1000) (take 20 comments2) ->
  create_analysis_prompt title body1 comments1 repo
  = create_analysis_prompt title body2 comments2 repo.
Proof.
  intros Hb Hc. unfold Prompts.create_analysis_prompt.
  rewrite !truncate_take, Hb.
  assert (forall l, map (truncate 1000) l = map (str_take 1000) l) as Hm.
  { intros l. apply map_ext. intros s. apply truncate_take. }
  by rewrite !Hm, Hc.
Qed.

Lemma length_concat_le sep (l : list string) k :
  Forall (fun s => String.length s <= k)%nat l ->
  (String.length (String.concat sep l)
   <= (k + String.length sep) * length l)%nat.
Proof.
  induction 1 as [| x l Hx Hl IH]; [cbn; lia |].
  destruct l as [| y l].
  - cbn. lia.
  - change (String.concat sep (x :: y :: l))
      with (x +:+ sep +:+ String.concat sep (y :: l)).
    rewrite !length_append. cbn [length] in *. lia.
Qed.

Lemma length_comments_text (l : list string) :
  Forall (fun s => String.length s <= 1000)%nat l ->
  (length l <= 20)%nat ->
  (String.length (comments_text l) <= 20 * 1003)%nat.
Proof.
  intros Hl Hn. destruct l as [| x l]; [cbn; lia |].
  unfold comments_text.
  pose proof (length_concat_le nl (map (fun c => "- " +:+ c) (x :: l)) 1002) as H.
  rewrite length_map in H. cbn [String.length nl] in H.
  assert (Forall (fun s => (String.length s <= 1002)%nat)
            (map (fun c => "- " +:+ c) (x :: l))) as HF.
  { apply Forall_forall. intros s Hs.
    apply list_elem_of_In, in_map_iff in Hs as (c & <- & Hc).
    rewrite Forall_forall in Hl. apply list_elem_of_In, Hl in Hc.
    rewrite length_append. cbn [String.length]. lia. }
  specialize (H HF). cbn [length] in *. lia.
Qed.

(** X16.  The size of the prompt does not grow with the issue: beside the
    constant texts, the title and the repository, it holds at most 8000
    characters of body and 20 times 1003 characters of comments. *)
Theorem create_analysis_prompt_size title body comments repo :
  (String.length (create_analysis_prompt title body comments repo)
   <= String.length SYSTEM_PROMPT + String.length few_shot_section
      + String.length (repository_text repo) + String.length title
      + 8000 + 20 * 1003 + 168)%nat.
Proof.
  unfold Prompts.create_analysis_prompt. cbv zeta.
  rewrite !length_append.
  pose proof (length_truncate 8000 body) as Hb.
  pose proof (length_comments_text (map (truncate 1000) (take 20 comments))) as Hc.
  assert (String.length (comments_text (map (truncate 1000) (take 20 comments)))
          <= 20 * 1003)%nat as Hc'.
  { apply Hc.
    - apply Forall_forall. intros s Hs.
      apply list_elem_of_In, in_map_iff in Hs as (c & <- & _).
      apply length_truncate.
    - rewrite length_map, length_take. lia. }
  cbn [String.length nl]. lia.
Qed.

(** An issue without comments is announced as such, and a missing or
    empty repository is called Unknown. *)
Theorem create_analysis_prompt_placeholders title body :
  create_analysis_prompt title body [] None
  = create_analysis_prompt title body [] (Some EmptyString) /\
  comments_text (map (truncate 1000) (take 20 [])) = "(No comments yet)" /\
  repository_text None = "Unknown".
Proof. repeat split; reflexivity. Qed.

End PromptLaws.

(** ** The comments of an issue *)

Section CommentLaws.

Import GitHubComments.

Lemma comment_bodies_dicts ds :
  comment_bodies (PyDict <$> ds) = ret (omap body_of ds).
Proof.
  induction ds as [| d ds IH]; [reflexivity |].
  rewrite fmap_cons. cbn [comment_bodies py_get bind ret].
  rewrite IH. cbn [omap list_omap]. unfold body_of, dict_get.
  destruct (dict_lookup d "body") as [v |]; cbn [Routes.py_bool bind ret];
    [| reflexivity].
  by destruct (Routes.py_bool v).
Qed.

Lemma comment_bodies_truthy l bs :
  comment_bodies l = inr bs -> Forall (fun b => Routes.py_bool b = true) bs.
Proof.
  revert bs. induction l as [| c l IH]; intros bs.
  - intros [= <-]. constructor.
  - cbn [comment_bodies].
    destruct c as [| | | | | | d]; try discriminate. cbn [py_get bind ret].
    destruct (Routes.py_bool (dict_get d "body" PyNone)) eqn:Hb.
    + destruct (comment_bodies l) as [e | bs']; [discriminate |].
      intros [= <-]. constructor; [| by apply IH].
      unfold dict_get in *. by destruct (dict_lookup d "body").
    + apply IH.
Qed.

Lemma comment_bodies_not_dict l x :
  In x l -> (forall d, x <> PyDict d) -> comment_bodies l = raise AttributeError.
Proof.
  intros Hin Hx. induction l as [| c l IH]; [done |].
  cbn [comment_bodies].
  destruct c as [| | | | | | d]; try reflexivity.
  destruct Hin as [<- | Hin]; [by destruct (Hx d) |].
  cbn [py_get bind ret]. rewrite (IH Hin).
  by destruct (Routes.py_bool _).
Qed.

Lemma Forall_slice_to (P : pyval -> Prop) n l :
  Forall P l -> Forall P (slice_to n l).
Proof. intros H. unfold slice_to. destruct (0 <=? n); by apply Forall_take. Qed.

(** X17.  Whatever the answer to the request for the comments was, the
    comments handed on are at most [max_comments], and each of them is a
    body that is true (not empty, not [null]). *)
Theorem _fetch_comments_bounds exchange max_comments :
  0 <= max_comments ->
  (length (_fetch_comments exchange max_comments) <= Z.to_nat max_comments)%nat /\
  Forall (fun b => Routes.py_bool b = true)
    (_fetch_comments exchange max_comments).
Proof.
  intros Hmax. unfold _fetch_comments.
  destruct (bind exchange _) as [e | bs] eqn:Hb; [split; [cbn; lia | constructor] |].
  split.
  - unfold slice_to. rewrite (proj2 (Z.leb_le 0 max_comments) Hmax).
    rewrite length_take. lia.
  - apply Forall_slice_to.
    destruct exchange as [e | data]; [discriminate |]. cbn [bind] in Hb.
    destruct data as [| | | | s | l | d]; try discriminate.
    + destruct s; [| discriminate]. injection Hb as <-. constructor.
    + by apply comment_bodies_truthy in Hb.
    + destruct d; [| discriminate]. injection Hb as <-. constructor.
Qed.

(** For an answer that is a list of objects the comments are the true
    bodies in the order of the answer, cut at [max_comments]. *)
Theorem _fetch_comments_objects ds max_comments :
  _fetch_comments (inr (PyList (PyDict <$> ds))) max_comments
  = slice_to max_comments (omap body_of ds).
Proof.
  unfold _fetch_comments. cbn [bind]. by rewrite comment_bodies_dicts.
Qed.

(** X18.  One element that is not an object discards every comment: the
    outcome is the empty list, as for a failed request. *)
Theorem _fetch_comments_all_or_nothing l x max_comments :
  In x l -> (forall d, x <> PyDict d) ->
  _fetch_comments (inr (PyList l)) max_comments = [].
Proof.
  intros Hin Hx. unfold _fetch_comments. cbn [bind].
  by rewrite (comment_bodies_not_dict l x).
Qed.

End CommentLaws.

(** ** Witnesses of the laws above *)

Lemma _validate_priority_score_not_http v :
  Conditions.not_http (LLMService._validate_priority_score v).
Proof.
  unfold LLMService._validate_priority_score.
  destruct (PyInt.int v) as [e | z] eqn:Hint.
  - destruct (is_ValueError e || is_TypeError e); [exact I |].
    destruct v as [| b | z | f | s | l | d]; cbn in Hint;
      try discriminate; try (by injection Hint as <-).
    + destruct f; cbn in Hint; try discriminate; by injection Hint as <-.
    + destruct (PyInt.of_str s); [discriminate | by injection Hint as <-].
  - by destruct (_ && _).
Qed.

(** The construction of an analysis never raises the exception of the
    web layer. *)
Lemma build_analysis_not_http str_field d :
  Conditions.not_http (LLMService.build_analysis str_field d).
Proof.
  unfold LLMService.build_analysis.
  destruct d as [| | | | | | d]; try reflexivity. cbn [py_get bind ret].
  destruct (dict_get d "priority_score" (PyDict [])) as [| | | | | | ps];
    try reflexivity. cbn [py_get bind ret].
  pose proof (_validate_priority_score_not_http (dict_get ps "score" PyNone)) as Hs.
  destruct (LLMService._validate_priority_score _) as [e | sc]; [exact Hs |].
  cbn [bind]. unfold LLMService.PriorityScore_init.
  destruct (str_field (dict_get ps "justification" _)); [| reflexivity].
  destruct (_ && _); [| reflexivity]. cbn [bind ret].
  unfold LLMService.IssueAnalysis_init.
  destruct (str_field (dict_get d "summary" _)); [| reflexivity].
  destruct (str_field (dict_get d "potential_impact" _)); [| reflexivity].
  by destruct (negb _).
Qed.

Lemma get_sound_witness :
  CacheManager.get Samples.cache_one Demo.cache_key Demo.noon
    CacheManager.ReadRaises = (Some Demo.data_ok, Samples.cache_one) /\
  Demo.noon < CacheManager.expires_at Samples.entry_ok.
Proof.
  split; [reflexivity |].
  destruct (get_sound Samples.cache_one Demo.cache_key Demo.noon
              CacheManager.ReadRaises Demo.data_ok Samples.cache_one eq_refl)
    as [_ [[H _] | (e & He & _ & Hlt)]]; [discriminate H |].
  vm_compute in He. injection He as <-. exact Hlt.
Defined.

Lemma set_overwrites_witness :
  exists self1 self2,
    CacheManager.set Demo.cache_local Demo.cache_key Demo.data_bare None
      Demo.noon CacheManager.WriteRaises = (ret true, self1) /\
    CacheManager.set self1 Demo.cache_key Demo.data_ok (Some 60)
      (Demo.noon + 1) CacheManager.WriteRaises = (ret true, self2) /\
    CacheManager.get self2 Demo.cache_key (Demo.noon + 2)
      CacheManager.ReadNothing = (Some Demo.data_ok, self2).
Proof.
  destruct (set_overwrites Demo.cache_local Demo.cache_key Demo.data_bare
              Demo.data_ok None (Some 60) Demo.noon (Demo.noon + 1)
              CacheManager.WriteRaises CacheManager.WriteRaises
              (Demo.noon + 86400 * 1000000) (Demo.noon + 1 + 60 * 1000000))
    as (self1 & self2 & H1 & H2 & _ & Hget);
    [left; reflexivity | reflexivity | reflexivity |].
  exists self1, self2. split; [exact H1 |]. split; [exact H2 |].
  apply Hget; [left; reflexivity |]. unfold Demo.noon. lia.
Defined.

Lemma set_get_other_key_witness :
  fst (CacheManager.get
         (snd (CacheManager.set Samples.cache_one "acme/widgets#7"
                 Demo.data_bare None Demo.noon CacheManager.WriteRaises))
         Demo.cache_key Demo.noon CacheManager.ReadNothing)
  = Some Demo.data_ok.
Proof.
  rewrite (set_get_other_key Samples.cache_one "acme/widgets#7" Demo.cache_key
             Demo.data_bare None Demo.noon CacheManager.WriteRaises _ _
             Demo.noon CacheManager.ReadNothing (surjective_pairing _)).
  - reflexivity.
  - discriminate.
Defined.

Lemma delete_in_process_witness :
  exists self',
    CacheManager.delete Samples.cache_one Demo.cache_key
      CacheManager.WriteRaises = (true, self') /\
    CacheManager.get self' Demo.cache_key Demo.noon CacheManager.ReadNothing
      = (None, self').
Proof.
  destruct (delete_in_process Samples.cache_one Demo.cache_key
              CacheManager.WriteRaises) as (self' & Hd & _ & _ & Hget);
    [left; reflexivity |].
  exists self'. split; [exact Hd |]. apply Hget. left. reflexivity.
Defined.

Lemma delete_keeps_fallback_entry_witness :
  exists self1,
    CacheManager.set Demo.cache_redis Demo.cache_key Demo.data_ok None
      Demo.noon CacheManager.WriteRaises = (ret true, self1) /\
    CacheManager.delete self1 Demo.cache_key CacheManager.WriteOk
      = (true, self1) /\
    CacheManager.get self1 Demo.cache_key (Demo.noon + 1)
      CacheManager.ReadNothing = (Some Demo.data_ok, self1).
Proof.
  destruct (delete_keeps_fallback_entry Demo.cache_redis Demo.cache_key
              Demo.data_ok None Demo.noon (Demo.noon + 86400 * 1000000))
    as (self1 & Hset & Hdel & Hget); [reflexivity | reflexivity |].
  exists self1. split; [exact Hset |]. split; [exact Hdel |].
  apply Hget; [discriminate |]. unfold Demo.noon. lia.
Defined.

Lemma clear_all_in_process_witness :
  exists self',
    CacheManager.clear_all Samples.cache_one CacheManager.WriteRaises
      = (true, self') /\
    CacheManager.get self' Demo.cache_key Demo.noon CacheManager.ReadNothing
      = (None, self').
Proof.
  destruct (clear_all_in_process Samples.cache_one CacheManager.WriteRaises)
    as (self' & Hc & _ & Hget); [left; reflexivity |].
  exists self'. split; [exact Hc |]. apply Hget. left. reflexivity.
Defined.

Lemma demo_world_ok_plain : Conditions.plain_world Demo.world_ok.
Proof. split; exact I. Qed.

Lemma demo_world_no_issue_plain : Conditions.plain_world Demo.world_no_issue.
Proof. split; [reflexivity | exact I]. Qed.

Lemma analyze_issue_status_codes_witness :
  exists code detail,
    fst (Demo.analyze_route Demo.request_42 Demo.world_no_issue Demo.app0)
      = raise (HTTPException code detail) /\
    (code = 400 \/ code = 404 \/ code = 500).
Proof.
  destruct (analyze_issue_status_codes None false Demo.IssueAnalysis_parse
              (build_analysis_not_http Demo.str_field)
              Demo.request_42 Demo.world_no_issue Demo.app0
              (HTTPException 500 "Internal server error")
              (snd (Demo.analyze_route Demo.request_42 Demo.world_no_issue
                      Demo.app0)))
    as (code & detail & He & Hcode);
    [exact demo_world_no_issue_plain | reflexivity |].
  exists code, detail. split; [by rewrite <- He | exact Hcode].
Defined.

Lemma analyze_issue_counts_errors_witness :
  Routes.errors
    (Routes.stats
       (snd (Demo.analyze_route Demo.request_42 Demo.world_no_issue Demo.app0)))
  = 1.
Proof.
  exact (analyze_issue_counts_errors None false Demo.IssueAnalysis_parse
           (build_analysis_not_http Demo.str_field)
           Demo.request_42 Demo.world_no_issue Demo.app0 _ _
           demo_world_no_issue_plain (surjective_pairing _)).
Defined.

Lemma analyze_issue_counts_success_witness :
  exists response app',
    Demo.analyze_route Demo.request_42 Demo.world_ok Demo.app0
      = (ret response, app') /\
    cached (metadata response) = false /\
    Routes.total_analyses (Routes.stats app') = 1 /\
    Routes.cache_hits (Routes.stats app') = 0.
Proof.
  eexists. eexists. split; [reflexivity |].
  destruct (analyze_issue_counts_success None false Demo.IssueAnalysis_parse
              (build_analysis_not_http Demo.str_field)
              Demo.request_42 Demo.world_ok Demo.app0 _ _
              demo_world_ok_plain eq_refl) as (_ & Hh & Ht).
  split; [reflexivity |]. split; [exact Ht | exact Hh].
Defined.

Lemma analyze_issue_without_cache_witness :
  fst (Demo.analyze_route Samples.request_fresh Demo.world_ok Demo.app0)
  = fst (Demo.analyze_route Samples.request_fresh Demo.world_ok
           {| Routes.cache_manager := Samples.cache_one;
              Routes.stats := Routes.stats0 |}).
Proof.
  exact (analyze_issue_without_cache None false Demo.IssueAnalysis_parse
           Samples.request_fresh Demo.world_ok Demo.app0
           {[ Demo.cache_key := Samples.entry_ok ]} Routes.stats0
           CacheManager.ReadNothing Demo.noon eq_refl).
Defined.

Lemma analyze_issue_twice_witness :
  exists r1 app1 r2 app2,
    Demo.analyze_route Demo.request_42 Demo.world_ok Demo.app0 = (ret r1, app1) /\
    cached (metadata r1) = false /\
    Demo.analyze_route Demo.request_42 Samples.world_later app1 = (ret r2, app2) /\
    cached (metadata r2) = true /\ data r2 = data r1.
Proof.
  destruct (analyze_issue_twice None false Demo.IssueAnalysis_parse
              Demo.request_42 Demo.world_ok Samples.world_later Demo.app0
              "acme" "widgets" Demo.issue Demo.analysis_ok
              (Demo.noon + 86400 * 1000000))
    as (r1 & app1 & r2 & app2 & H1 & Hd1 & Hc1 & H2 & Hd2 & Hc2 & _);
    try reflexivity.
  exists r1, app1, r2, app2.
  split; [exact H1 |]. split; [exact Hc1 |]. split; [exact H2 |].
  split; [exact Hc2 |]. by rewrite Hd1, Hd2.
Defined.

Lemma analyze_batch_accounting_witness :
  exists entries app',
    Demo.analyze_batch [Demo.item_ok; Demo.item_ok] Demo.app0 =
      (ret {| Routes.analyses := entries; Routes.total := 2 |}, app') /\
    length entries = 2%nat /\
    Routes.errors (Routes.stats app') = Conditions.count_errors entries.
Proof.
  destruct (analyze_batch_accounting None false Demo.IssueAnalysis_parse
              Demo.str_field Demo.int_field
              (build_analysis_not_http Demo.str_field)
              [Demo.item_ok; Demo.item_ok] (fun _ => Demo.world_ok) Demo.app0)
    as (entries & app' & Hb & Hlen & Herr).
  - cbn. lia.
  - repeat constructor; eexists; reflexivity.
  - intros j. exact demo_world_ok_plain.
  - exists entries, app'. split; [exact Hb |]. split; [exact Hlen | exact Herr].
Defined.

(** X7.  Every score other than an infinite float is repaired without an
    exception: the validator answers a number from 1 to 5, which is the
    integer conversion of the score when that lies in the range and 3
    in every other case (a conversion out of range, text that is not a
    number, [null], a list, a dict, a NaN). *)
Theorem priority_score_always_repaired v :
  (forall sgn, v <> PyFloat (S754_infinity sgn)) ->
  exists n,
    LLMService._validate_priority_score v = ret n /\ 1 <= n <= 5 /\
    n = match PyInt.int v with
        | inr z => if (1 <=? z) && (z <=? 5) then z else 3
        | inl _ => 3
        end.
Proof.
  intros Hfin.
  destruct (_validate_priority_score_repairs v Hfin) as (n & Hn & Hr & Hc).
  exists n. split; [exact Hn |]. split; [exact Hr |].
  destruct (PyInt.int v) as [e | z]; [exact Hc |].
  by destruct ((1 <=? z) && (z <=? 5)).
Qed.

Lemma priority_score_always_repaired_witness :
  LLMService._validate_priority_score (PyStr " 4 ") = ret 4 /\
  LLMService._validate_priority_score (PyStr "high") = ret 3 /\
  LLMService._validate_priority_score (PyInt 7) = ret 3.
Proof.
  destruct (priority_score_always_repaired (PyStr " 4 "))
    as (n1 & H1 & _ & E1); [discriminate |].
  destruct (priority_score_always_repaired (PyStr "high"))
    as (n2 & H2 & _ & E2); [discriminate |].
  destruct (priority_score_always_repaired (PyInt 7))
    as (n3 & H3 & _ & E3); [discriminate |].
  rewrite H1, H2, H3, E1, E2, E3. repeat split; reflexivity.
Defined.

Lemma build_analysis_of_dict_witness :
  LLMService.build_analysis Demo.str_field
    (Routes.IssueAnalysis_dict Demo.analysis_ok) = ret Demo.analysis_ok.
Proof.
  apply build_analysis_of_dict; [reflexivity |].
  split; [reflexivity |]. split; [cbn; lia |]. split; [discriminate |].
  split; [cbn; lia |]. repeat constructor.
Defined.

Lemma _parse_response_defaults_witness :
  exists a,
    LLMService._parse_response Samples.json_loads Demo.str_field
      Samples.reply_empty = ret a /\
    score (priority_score a) = 3 /\ suggested_labels a = ["general"].
Proof.
  eexists. split.
  - by apply (_parse_response_defaults Samples.json_loads Demo.str_field
                Samples.reply_empty []).
  - split; reflexivity.
Defined.

Lemma _parse_response_not_object_witness :
  LLMService._parse_response Samples.json_loads Demo.str_field
    Samples.reply_list = raise AttributeError.
Proof.
  apply (_parse_response_not_object Samples.json_loads Demo.str_field
           Samples.reply_list (PyList [PyInt 1; PyInt 2])); [reflexivity |].
  discriminate.
Defined.

Lemma analyze_issue_recovers_witness :
  Samples.analyze_issue Samples.model_flaky 3
  = (ret Demo.analysis_ok, repeat "Issue Title: Crash on start" 3).
Proof.
  apply (analyze_issue_recovers Demo.json_loads Demo.str_field
           Demo.create_analysis_prompt Samples.model_flaky
           "Crash on start" (Some "It crashes.") [] (Some "acme/widgets")
           "Issue Title: Crash on start" eq_refl 2 3).
  - lia.
  - intros i Hi. eexists.
    destruct i as [| [| i]]; [split; reflexivity | split; reflexivity | lia].
  - reflexivity.
Defined.

Lemma analyze_issue_client_decode_error_witness :
  Samples.analyze_issue Samples.model_decode_error 3
  = (raise UnboundLocalError, ["Issue Title: Crash on start"]).
Proof.
  exact (analyze_issue_client_decode_error Demo.json_loads Demo.str_field
           Demo.create_analysis_prompt Samples.model_decode_error
           "Crash on start" (Some "It crashes.") [] (Some "acme/widgets")
           "Issue Title: Crash on start" eq_refl
           "Expecting value: line 1 column 1 (char 0)" 0 3 [] eq_refl).
Defined.

Lemma analyze_issue_bounded_witness :
  LLMService.analyze_issue Demo.json_loads Demo.str_field
    Demo.create_analysis_prompt Demo.model_ok
    "Crash on start" None [] (Some "acme/widgets") 0 3 []
  = (raise TypeError, []) /\
  exists j,
    (1 <= j <= 4)%nat /\
    snd (Samples.analyze_issue Samples.model_flaky 3)
    = repeat "Issue Title: Crash on start" j.
Proof.
  split.
  - exact (analyze_issue_bounded Demo.json_loads Demo.str_field
             Demo.create_analysis_prompt Demo.model_ok
             "Crash on start" None [] (Some "acme/widgets") 0 3 []).
  - exact (analyze_issue_bounded Demo.json_loads Demo.str_field
             Demo.create_analysis_prompt Samples.model_flaky
             "Crash on start" (Some "It crashes.") [] (Some "acme/widgets")
             0 3 []).
Defined.

Lemma analyze_issue_schema_witness :
  exists a sent,
    Samples.analyze_issue Demo.model_ok 3 = (inr a, sent) /\
    1 <= score (priority_score a) <= 5 /\
    (length (suggested_labels a) <= 5)%nat.
Proof.
  assert (Samples.analyze_issue Demo.model_ok 3
          = (inr Demo.analysis_ok, ["Issue Title: Crash on start"])) as Hrun
    by reflexivity.
  exists Demo.analysis_ok, ["Issue Title: Crash on start"].
  split; [exact Hrun |].
  destruct (analyze_issue_schema Demo.json_loads Demo.str_field
              Demo.create_analysis_prompt Demo.model_ok
              "Crash on start" (Some "It crashes.") [] (Some "acme/widgets")
              0 3 [] _ _ Hrun) as (_ & Hs & Hl & _).
  split; [exact Hs | exact Hl].
Defined.

Lemma parse_github_url_segments_witness :
  GitHubService.parse_github_url "https://github.com/acme/widgets"
  = ret ("acme", "widgets").
Proof.
  apply (parse_github_url_segments "https://" "acme" "widgets");
    try reflexivity; try discriminate; cbn; repeat split; discriminate.
Defined.

Lemma parse_github_url_git_suffix_witness :
  GitHubService.parse_github_url "git://github.com/acme/widgets.git"
  = ret ("acme", "widgets").
Proof.
  apply (parse_github_url_git_suffix "git://" "acme" "widgets");
    try reflexivity; try discriminate; cbn; repeat split; discriminate.
Defined.

Lemma parse_github_url_blanks_witness :
  GitHubService.parse_github_url
    (String "009" " " +:+ "https://github.com/acme/widgets"
     +:+ String "010" EmptyString)
  = GitHubService.parse_github_url "https://github.com/acme/widgets".
Proof.
  apply parse_github_url_blanks; reflexivity.
Defined.


Lemma extract_json_fenced_witness :
  LLMService.extract_json
    ("Here is the analysis:" +:+ Samples.nl +:+ "```json" +:+ Samples.nl
     +:+ "{'type': 'bug'}" +:+ Samples.nl +:+ "```" +:+ Samples.nl
     +:+ "Let me know if you need more.")
  = "{'type': 'bug'}".
Proof.
  apply (extract_json_fenced ("Here is the analysis:" +:+ Samples.nl)
           Samples.nl "{'type': 'bug'}" Samples.nl
           (Samples.nl +:+ "Let me know if you need more."));
    try reflexivity; cbn; repeat split; discriminate.
Defined.

Lemma extract_json_plain_witness :
  LLMService.extract_json Demo.reply_ok = Demo.reply_ok.
Proof.
  apply extract_json_plain. vm_compute. repeat split; discriminate.
Defined.

Lemma create_analysis_prompt_limits_witness :
  Prompts.create_analysis_prompt "S" "F" "Crash" "It crashes."
    (repeat "+1" 20 ++ ["one comment too many"]) None
  = Prompts.create_analysis_prompt "S" "F" "Crash" "It crashes."
      (repeat "+1" 20) None.
Proof.
  apply create_analysis_prompt_limits; reflexivity.
Defined.

Lemma _fetch_comments_bounds_witness :
  (length (GitHubComments._fetch_comments (inr Samples.comments_answer) 20)
   <= 20)%nat /\
  Forall (fun b => Routes.py_bool b = true)
    (GitHubComments._fetch_comments (inr Samples.comments_answer) 20).
Proof.
  apply (_fetch_comments_bounds (inr Samples.comments_answer) 20). lia.
Defined.

Lemma _fetch_comments_all_or_nothing_witness :
  GitHubComments._fetch_comments
    (inr (PyList [PyDict [("body", PyStr "Same here")]; PyNone])) 20 = [].
Proof.
  apply (_fetch_comments_all_or_nothing _ PyNone); [cbn; tauto | discriminate].
Defined.
